(** * FarmerMarketSystem: the CSRF guard, the route table and the
      authentication pipeline

    Shallow embedding of [backend/internal/utils/csrf.go] (the functions
    [SetCSRFToken] and [ValidateCSRFToken]) and of the route tables built by
    the two [main] functions of the repository, together with the parts of
    Go's standard library these functions call ([encoding/base64],
    [crypto/rand], [net/http] cookies and form values). *)

From Stdlib Require Import ZArith Lia List Ascii String Bool.
From Stdlib.Strings Require Import Byte.
From stdpp Require Import gmap strings.
Import ListNotations.

Local Open Scope string_scope.
Local Open Scope Z_scope.

(** ** Octets

    A Go [byte] is kept as a [Byte.byte]; the arithmetic of the encoder is
    done on its value as an integer, as Go does after [uint(src[i])]. *)

Module octet.

Definition toZ (b : byte) : Z := Z.of_N (Byte.to_N b).

(** The conversion [byte(v)] of Go: the low eight bits of [v]. *)
Definition ofZ (v : Z) : byte :=
  match Byte.of_N (Z.to_N (Z.land v 255)) with
  | Some b => b
  | None => x00
  end.

End octet.

(** ** encoding/base64, the standard encoding with padding *)

Module base64.

Definition encodeStd : string :=
  "ABCDEFGHIJKLMNOPQRSTUVWXYZabcdefghijklmnopqrstuvwxyz0123456789+/".

Definition StdPadding : ascii := "="%char.

(** [enc.encode[i]] *)
Definition encode (i : Z) : ascii :=
  nth (Z.to_nat i) (list_ascii_of_string encodeStd) StdPadding.

Fixpoint index_of (c : ascii) (l : list ascii) (i : Z) : option Z :=
  match l with
  | [] => None
  | d :: l' => if Ascii.eqb c d then Some i else index_of c l' (i + 1)
  end.

(** [enc.decodeMap[c]], with [None] for the entries Go fills with 0xFF. *)
Definition decodeMap (c : ascii) : option Z :=
  index_of c (list_ascii_of_string encodeStd) 0.

Definition sextet (val shift : Z) : ascii :=
  encode (Z.land (Z.shiftr val shift) 63).

(** [Encoding.Encode]: three octets give four characters; a remainder of
    one or two octets gives a padded quantum. *)
Fixpoint Encode (src : list byte) : list ascii :=
  match src with
  | [] => []
  | [b0] =>
      let val := Z.shiftl (octet.toZ b0) 16 in
      [sextet val 18; sextet val 12; StdPadding; StdPadding]
  | [b0; b1] =>
      let val := Z.lor (Z.shiftl (octet.toZ b0) 16) (Z.shiftl (octet.toZ b1) 8) in
      [sextet val 18; sextet val 12; sextet val 6; StdPadding]
  | b0 :: b1 :: b2 :: rest =>
      let val := Z.lor (Z.shiftl (octet.toZ b0) 16)
                   (Z.lor (Z.shiftl (octet.toZ b1) 8) (octet.toZ b2)) in
      sextet val 18 :: sextet val 12 :: sextet val 6 :: sextet val 0 :: Encode rest
  end.

Definition EncodeToString (src : list byte) : string :=
  string_of_list_ascii (Encode src).

Definition isNewline (c : ascii) : bool :=
  Ascii.eqb c "010"%char || Ascii.eqb c "013"%char.

Definition isNil {A} (l : list A) : bool :=
  match l with [] => true | _ => false end.

(** [Encoding.decodeQuantum], one quantum after the other, on an input
    from which line breaks were dropped; [None] is [CorruptInputError]. *)
Fixpoint decodeQuanta (s : list ascii) : option (list byte) :=
  match s with
  | [] => Some []
  | c0 :: c1 :: c2 :: c3 :: rest =>
      match decodeMap c0, decodeMap c1 with
      | Some s0, Some s1 =>
          match decodeMap c2, decodeMap c3 with
          | Some s2, Some s3 =>
              let val := Z.lor (Z.shiftl s0 18)
                           (Z.lor (Z.shiftl s1 12) (Z.lor (Z.shiftl s2 6) s3)) in
              match decodeQuanta rest with
              | Some out =>
                  Some (octet.ofZ (Z.shiftr val 16) :: octet.ofZ (Z.shiftr val 8)
                          :: octet.ofZ val :: out)
              | None => None
              end
          | Some s2, None =>
              let val := Z.lor (Z.shiftl s0 18) (Z.lor (Z.shiftl s1 12) (Z.shiftl s2 6)) in
              if Ascii.eqb c3 StdPadding && isNil rest
              then Some [octet.ofZ (Z.shiftr val 16); octet.ofZ (Z.shiftr val 8)]
              else None
          | None, _ =>
              let val := Z.lor (Z.shiftl s0 18) (Z.shiftl s1 12) in
              if Ascii.eqb c2 StdPadding && Ascii.eqb c3 StdPadding && isNil rest
              then Some [octet.ofZ (Z.shiftr val 16)]
              else None
          end
      | _, _ => None
      end
  | _ => None
  end.

Definition DecodeString (s : string) : option (list byte) :=
  decodeQuanta (List.filter (fun c => negb (isNewline c)) (list_ascii_of_string s)).

End base64.

(** ** errors, time, crypto/rand *)

Inductive error : Type :=
| errors_New (msg : string).

Module time.

(** A [time.Time] as the number of nanoseconds since the Unix epoch, a
    [time.Duration] as a number of nanoseconds. *)
Definition Time := Z.
Definition Duration := Z.

Definition Nanosecond : Duration := 1.
Definition Microsecond : Duration := 1000 * Nanosecond.
Definition Millisecond : Duration := 1000 * Microsecond.
Definition Second : Duration := 1000 * Millisecond.
Definition Minute : Duration := 60 * Second.
Definition Hour : Duration := 60 * Minute.

(** [time.Now()]: the reading of the wall clock, which counts from the
    epoch upwards. *)
Definition Now (clock : N) : Time := Z.of_N clock.

Definition Add (t : Time) (d : Duration) : Time := t + d.

(** The first instant of the year 1601 (UTC). *)
Definition year1601 : Time := -11644473600 * Second.

End time.

Module rand.

(** The state of the operating system's entropy source when [rand.Read]
    is called: either it delivers octets ([stream i] is the i-th one), or
    the read fails with an error. *)
Inductive Reader : Type :=
| Entropy (stream : nat -> byte)
| Unavailable (err : error).

(** [rand.Read(b)]: fills [b] entirely and returns [len(b), nil], or
    returns an error. The result is the buffer after the call, [n] and
    [err]. *)
Definition Read (rd : Reader) (b : list byte) : list byte * (nat * option error) :=
  match rd with
  | Entropy stream => (List.map stream (seq 0 (List.length b)), (List.length b, None))
  | Unavailable err => (b, (O, Some err))
  end.

End rand.

(** ** The identity a session resolves to *)

(** Modelled from the spec: the three user roles of section 1 (admin,
    farmer, buyer). The packages that define sessions and roles are missing
    from the sources. *)
Inductive Role : Type := RoleAdmin | RoleFarmer | RoleBuyer.

#[global] Instance Role_eq_dec : EqDecision Role.
Proof. solve_decision. Defined.

(** Modelled from the spec: the Request Identity of section 3, a user
    identifier and a role. The packages that define sessions and roles are
    missing from the sources. *)
Record Identity : Type := mkIdentity {
  userID : Z;
  role : Role
}.

(** ** net/http: cookies, response writer, request *)

Module http.

Inductive SameSite : Type :=
| SameSiteUnset
| SameSiteDefaultMode
| SameSiteLaxMode
| SameSiteStrictMode
| SameSiteNoneMode.

(** [http.Cookie], with the fields [SetCSRFToken] fills in; the fields it
    leaves at their zero value ([Domain], [MaxAge], ...) add nothing to
    the header line and are left out. [Expires] is [None] for the zero
    [time.Time]. *)
Record Cookie : Type := mkCookie {
  Name : string;
  Value : string;
  Path : string;
  Expires : option time.Time;
  HttpOnly : bool;
  Secure : bool;
  SameSiteMode : SameSite
}.

Definition code (c : ascii) : Z := Z.of_N (N_of_ascii c).

Definition mem (c : ascii) (s : string) : bool :=
  existsb (Ascii.eqb c) (list_ascii_of_string s).

(** [httpguts.IsTokenRune]: the characters of an RFC 7230 token. *)
Definition isTokenRune (c : ascii) : bool :=
  ((code "a"%char <=? code c)%Z && (code c <=? code "z"%char)%Z)
  || ((code "A"%char <=? code c)%Z && (code c <=? code "Z"%char)%Z)
  || ((code "0"%char <=? code c)%Z && (code c <=? code "9"%char)%Z)
  || mem c "!#$%&'*+-.^_`|~".

Definition isCookieNameValid (raw : string) : bool :=
  negb (String.eqb raw EmptyString)
  && forallb isTokenRune (list_ascii_of_string raw).

Definition validCookieValueByte (b : ascii) : bool :=
  (32 <=? code b)%Z && (code b <? 127)%Z
  && negb (Ascii.eqb b "034"%char) && negb (Ascii.eqb b ";"%char)
  && negb (Ascii.eqb b "\"%char).

Definition validCookiePathByte (b : ascii) : bool :=
  (32 <=? code b)%Z && (code b <? 127)%Z && negb (Ascii.eqb b ";"%char).

(** [sanitizeOrWarn]: the octets that are not valid are dropped. *)
Definition sanitizeOrWarn (valid : ascii -> bool) (v : string) : string :=
  string_of_list_ascii (List.filter valid (list_ascii_of_string v)).

Definition quote : string := String "034"%char EmptyString.

Definition sanitizeCookieValue (v : string) : string :=
  let v' := sanitizeOrWarn validCookieValueByte v in
  if String.eqb v' EmptyString then v'
  else if existsb (fun c => Ascii.eqb c " "%char || Ascii.eqb c ","%char)
            (list_ascii_of_string v')
       then quote ++ v' ++ quote
       else v'.

Definition sanitizeCookiePath (v : string) : string :=
  sanitizeOrWarn validCookiePathByte v.

Definition validCookieExpires (t : time.Time) : bool := (time.year1601 <=? t)%Z.

(** The method [String] of a cookie, as the attributes of the [Set-Cookie]
    line it writes rather than as its text: [None] when Go returns the
    empty string (the name is not valid); the value and the path go through
    their sanitizers; an expiry before the year 1601 is not written. *)
Definition Cookie_String (c : Cookie) : option Cookie :=
  if isCookieNameValid (Name c) then
    Some {| Name := Name c;
            Value := sanitizeCookieValue (Value c);
            Path := sanitizeCookiePath (Path c);
            Expires := match Expires c with
                       | Some t => if validCookieExpires t then Some t else None
                       | None => None
                       end;
            HttpOnly := HttpOnly c;
            Secure := Secure c;
            SameSiteMode := SameSiteMode c |}
  else None.

(** The part of an [http.ResponseWriter] the pipeline acts on: the
    [Set-Cookie] lines of its header, in the order they were added, and
    the status code once one was written. *)
Record ResponseWriter : Type := mkResponseWriter {
  SetCookies : list Cookie;
  status : option Z
}.

(** [http.SetCookie(w, cookie)] *)
Definition SetCookie (w : ResponseWriter) (cookie : Cookie) : ResponseWriter :=
  match Cookie_String cookie with
  | Some line => {| SetCookies := SetCookies w ++ [line]; status := status w |}
  | None => w
  end.

(** The part of an [*http.Request] the pipeline reads: the parsed form
    ([r.Form], a [url.Values]), the cookies of the [Cookie] header as name
    and value in header order, and the identity held by the request's
    context, if one was attached. *)
Record Request : Type := mkRequest {
  Form : gmap string (list string);
  Cookies : list (string * string);
  identity : option Identity
}.

(** [r.FormValue(key)]: the first value of the key, the empty string when
    there is none. *)
Definition FormValue (r : Request) (key : string) : string :=
  match Form r !! key with
  | Some (v :: _) => v
  | _ => EmptyString
  end.

Definition ErrNoCookie : error := errors_New "http: named cookie not present".

Definition readCookie (nv : string * string) : Cookie :=
  {| Name := fst nv; Value := snd nv; Path := EmptyString; Expires := None;
     HttpOnly := false; Secure := false; SameSiteMode := SameSiteUnset |}.

(** [r.Cookie(name)]: the first cookie of that name, or [ErrNoCookie]. *)
Definition Cookie_ (r : Request) (name : string) : Cookie + error :=
  if String.eqb name EmptyString then inr ErrNoCookie
  else match List.find (fun nv => String.eqb (fst nv) name) (Cookies r) with
       | Some nv => inl (readCookie nv)
       | None => inr ErrNoCookie
       end.

Definition StatusUnauthorized : Z := 401.
Definition StatusForbidden : Z := 403.

End http.

(** ** backend/internal/utils/csrf.go *)

Module utils.

(** The three errors of [ValidateCSRFToken], under the names the
    specification gives them. *)
Definition CSRFMissingField : error := errors_New "csrf token not provided".
Definition CSRFMissingCookie : error := errors_New "csrf token cookie not found".
Definition CSRFMismatch : error := errors_New "invalid csrf token".

(** [SetCSRFToken(w)]: the writer after the call and the pair the
    function returns. [rd] is the entropy source [rand.Read] meets and
    [clock] the reading [time.Now()] takes. *)
Definition SetCSRFToken (rd : rand.Reader) (clock : N) (w : http.ResponseWriter)
  : http.ResponseWriter * (string * option error) :=
  let tokenBytes := repeat x00 32 in
  let '(tokenBytes, (_, err)) := rand.Read rd tokenBytes in
  match err with
  | Some e => (w, (EmptyString, Some e))
  | None =>
      let token := base64.EncodeToString tokenBytes in
      let cookie :=
        {| http.Name := "csrf_token";
           http.Value := token;
           http.Path := "/";
           http.Expires := Some (time.Add (time.Now clock) (24 * time.Hour));
           http.HttpOnly := true;
           http.Secure := true;
           http.SameSiteMode := http.SameSiteNoneMode |} in
      (http.SetCookie w cookie, (token, None))
  end.

(** [ValidateCSRFToken(r)]; [None] is Go's [nil]. *)
Definition ValidateCSRFToken (r : http.Request) : option error :=
  let formToken := http.FormValue r "csrf_token" in
  if String.eqb formToken EmptyString then Some CSRFMissingField
  else
    match http.Cookie_ r "csrf_token" with
    | inr _ => Some CSRFMissingCookie
    | inl cookie =>
        if negb (String.eqb formToken (http.Value cookie)) then Some CSRFMismatch
        else None
    end.

End utils.

(** ** The route tables of the two [main] functions

    A registered handler is kept as the expression [main] builds it from:
    [http.HandlerFunc(f)] (with [http.HandleFunc(p, f)] registering the
    same), and the three middleware constructors around it. *)

Module route.

Inductive Handler : Type :=
| HandlerFunc (f : string)
| Authenticate (next : Handler)   (* middleware.Authenticate(dbConn, next) *)
| AdminOnly (next : Handler)      (* middleware.AdminOnly(next) *)
| CORS (next : Handler).          (* middleware.CORS(next) *)

Definition Table := list (string * Handler).

(** The route applies the role-gating middleware somewhere. *)
Fixpoint usesAdminOnly (h : Handler) : bool :=
  match h with
  | HandlerFunc _ => false
  | Authenticate next => usesAdminOnly next
  | AdminOnly _ => true
  | CORS next => usesAdminOnly next
  end.

(** Every [AdminOnly] of the expression sits inside an [Authenticate];
    [authenticated] tells whether one was already passed on the way in. *)
Fixpoint roleAfterAuth (authenticated : bool) (h : Handler) : bool :=
  match h with
  | HandlerFunc _ => true
  | Authenticate next => roleAfterAuth true next
  | AdminOnly next => authenticated && roleAfterAuth authenticated next
  | CORS next => roleAfterAuth authenticated next
  end.

End route.

(** The routes registered by [main] in the state of the server that has
    the cart, checkout and product routes. *)
Module main.
Import route.

Definition routes : Table :=
  [ ("/favicon.ico", HandlerFunc "http.NotFound");
    (* Admin routes *)
    ("/", HandlerFunc "adminHandler.Root");
    ("/admin/register", HandlerFunc "adminHandler.Register");
    ("/admin/login", HandlerFunc "adminHandler.Login");
    ("/admin/logout", Authenticate (HandlerFunc "adminHandler.Logout"));
    ("/admin/dashboard", Authenticate (HandlerFunc "adminHandler.Dashboard"));
    ("/admin/dashboard/pending-farmers",
      Authenticate (AdminOnly (HandlerFunc "farmerHandler.ListPendingFarmers")));
    ("/admin/dashboard/farmer-profile",
      Authenticate (AdminOnly (HandlerFunc "farmerHandler.ViewFarmerProfile")));
    ("/admin/dashboard/approve-farmer",
      Authenticate (AdminOnly (HandlerFunc "farmerHandler.ApproveFarmer")));
    ("/admin/dashboard/reject-farmer",
      Authenticate (AdminOnly (HandlerFunc "farmerHandler.RejectFarmer")));
    ("/admin/users", Authenticate (AdminOnly (HandlerFunc "adminHandler.ListUsers")));
    ("/admin/users/toggle-farmer-status",
      Authenticate (AdminOnly (HandlerFunc "farmerHandler.ToggleFarmerStatus")));
    ("/admin/users/edit-farmer",
      Authenticate (AdminOnly (HandlerFunc "farmerHandler.EditFarmer")));
    ("/admin/users/delete-farmer",
      Authenticate (AdminOnly (HandlerFunc "farmerHandler.DeleteFarmer")));
    ("/admin/users/toggle-buyer-status",
      Authenticate (AdminOnly (HandlerFunc "buyerHandler.ToggleBuyerStatus")));
    ("/admin/users/edit-buyer",
      Authenticate (AdminOnly (HandlerFunc "buyerHandler.EditBuyer")));
    ("/admin/users/delete-buyer",
      Authenticate (AdminOnly (HandlerFunc "buyerHandler.DeleteBuyer")));
    (* Buyer Routes *)
    ("/buyer/register", CORS (HandlerFunc "buyerHandler.Register"));
    ("/buyer/login", CORS (HandlerFunc "buyerHandler.Login"));
    ("/buyer/logout", CORS (Authenticate (HandlerFunc "buyerHandler.Logout")));
    ("/buyer/home", CORS (Authenticate (HandlerFunc "buyerHandler.Home")));
    ("/buyer/product/", CORS (HandlerFunc "productHandler.GetProductDetails"));
    ("/cart", CORS (Authenticate (HandlerFunc "cartHandler.GetCart")));
    ("/cart/add", CORS (Authenticate (HandlerFunc "cartHandler.AddToCart")));
    ("/cart/remove/", CORS (Authenticate (HandlerFunc "cartHandler.RemoveFromCart")));
    ("/cart/update", CORS (Authenticate (HandlerFunc "cartHandler.UpdateCart")));
    ("/checkout", CORS (Authenticate (HandlerFunc "cartHandler.Checkout")));
    (* Farmer Routes *)
    ("/farmer/register", CORS (HandlerFunc "farmerHandler.Register"));
    ("/farmer/login", CORS (HandlerFunc "farmerHandler.Login"));
    ("/farmer/logout", CORS (Authenticate (HandlerFunc "farmerHandler.Logout")));
    ("/farmer/dashboard", CORS (Authenticate (HandlerFunc "farmerHandler.Dashboard")));
    ("/farmer/product/add-product",
      CORS (Authenticate (HandlerFunc "farmerHandler.AddProduct")));
    ("/farmer/product/list-products",
      CORS (Authenticate (HandlerFunc "farmerHandler.ListProducts")));
    ("/farmer/product/edit-product",
      CORS (Authenticate (HandlerFunc "farmerHandler.EditProduct")));
    ("/farmer/product/delete-product",
      CORS (Authenticate (HandlerFunc "farmerHandler.DeleteProduct"))) ].

End main.

(** The routes registered by [main] in the earlier state of the server,
    before the home, cart, checkout and product routes existed. *)
Module main_earlier.
Import route.

Definition routes : Table :=
  [ ("/favicon.ico", HandlerFunc "http.NotFound");
    ("/register", HandlerFunc "adminHandler.Register");
    ("/login", HandlerFunc "adminHandler.Login");
    ("/logout", Authenticate (HandlerFunc "adminHandler.Logout"));
    (* Dashboard routes *)
    ("/dashboard", Authenticate (HandlerFunc "adminHandler.Dashboard"));
    ("/dashboard/pending-farmers",
      Authenticate (AdminOnly (HandlerFunc "farmerHandler.ListPendingFarmers")));
    ("/dashboard/farmer-profile",
      Authenticate (AdminOnly (HandlerFunc "farmerHandler.ViewFarmerProfile")));
    ("/dashboard/approve-farmer",
      Authenticate (AdminOnly (HandlerFunc "farmerHandler.ApproveFarmer")));
    ("/dashboard/reject-farmer",
      Authenticate (AdminOnly (HandlerFunc "farmerHandler.RejectFarmer")));
    (* User management routes *)
    ("/admin/users", Authenticate (AdminOnly (HandlerFunc "adminHandler.ListUsers")));
    ("/admin/users/toggle-farmer-status",
      Authenticate (AdminOnly (HandlerFunc "farmerHandler.ToggleFarmerStatus")));
    ("/admin/users/edit-farmer",
      Authenticate (AdminOnly (HandlerFunc "farmerHandler.EditFarmer")));
    ("/admin/users/delete-farmer",
      Authenticate (AdminOnly (HandlerFunc "farmerHandler.DeleteFarmer")));
    ("/admin/users/toggle-buyer-status",
      Authenticate (AdminOnly (HandlerFunc "buyerHandler.ToggleBuyerStatus")));
    ("/admin/users/edit-buyer",
      Authenticate (AdminOnly (HandlerFunc "buyerHandler.EditBuyer")));
    ("/admin/users/delete-buyer",
      Authenticate (AdminOnly (HandlerFunc "buyerHandler.DeleteBuyer")));
    (* Buyer Routes *)
    ("/buyer/register", CORS (HandlerFunc "buyerHandler.Register"));
    ("/buyer/login", CORS (HandlerFunc "buyerHandler.Login"));
    ("/buyer/logout", CORS (Authenticate (HandlerFunc "buyerHandler.Logout")));
    (* Farmer Routes *)
    ("/farmer/register", CORS (HandlerFunc "farmerHandler.Register"));
    ("/farmer/login", CORS (HandlerFunc "farmerHandler.Login"));
    ("/farmer/logout", CORS (Authenticate (HandlerFunc "farmerHandler.Logout"))) ].

End main_earlier.

(** ** backend/internal/middleware

    The package is imported by [main] but its text is not part of the
    sources; its functions follow sections 4.3 to 4.5 of the
    specification. *)

Module middleware.

(** Modelled from the spec: the internal error of section 4.4, raised
    when the role check runs on a request that carries no identity. The
    package [middleware] is missing from the sources. *)
Inductive InternalError : Type := IdentityNotPresent.

(** Modelled from the spec: what one request has produced so far, namely
    the response being written and the log of the domain handlers that
    were invoked, each with the request it was handed (the call counter
    of section 8). The package [middleware] is missing from the
    sources. *)
Record Exchange : Type := mkExchange {
  writer : http.ResponseWriter;
  invoked : list (string * http.Request)
}.

(** Modelled from the spec: a handler either completes the exchange or
    stops on an internal error. The package [middleware] is missing from
    the sources. *)
Inductive Outcome : Type :=
| Done (x : Exchange)
| Fault (e : InternalError).

(** Modelled from the spec: a handler takes the request and carries the
    exchange on; a middleware is a function from the next handler to a
    handler (section 6). The package [middleware] is missing from the
    sources. *)
Definition Handler : Type := http.Request -> Exchange -> Outcome.

(** Modelled from the spec: responding with a status code ends the chain
    with that status on the response. The package [middleware] is missing
    from the sources. *)
Definition respond (code : Z) (x : Exchange) : Exchange :=
  {| writer := {| http.SetCookies := http.SetCookies (writer x);
                  http.status := Some code |};
     invoked := invoked x |}.

(** Modelled from the spec: the identity is attached to the request's
    processing context (section 4.3). The package [middleware] is missing
    from the sources. *)
Definition attach (id : Identity) (r : http.Request) : http.Request :=
  {| http.Form := http.Form r;
     http.Cookies := http.Cookies r;
     http.identity := Some id |}.

(** Modelled from the spec: a domain handler [f] registered through
    [http.HandlerFunc]; what it writes is its own business ([behaviour]),
    and the invocation is logged. The handlers are external to the core
    (section 1). *)
Definition HandlerFunc
    (behaviour : string -> http.Request -> http.ResponseWriter -> http.ResponseWriter)
    (f : string) : Handler :=
  fun r x =>
    Done {| writer := behaviour f r (writer x);
            invoked := invoked x ++ [(f, r)] |}.

Section Pipeline.

(** The name of the session cookie and the Session Store Adapter
    ([Lookup], section 4.5: [None] covers both not-found and
    expired). *)
Variable sessionCookie : string.
Variable Lookup : string -> option Identity.

(** Modelled from the spec: the Authentication Middleware of section
    4.3. Without the session cookie, or when the store does not resolve
    it, the response is 401 and the chain ends; otherwise the identity
    is attached and the wrapped handler runs. The package [middleware]
    is missing from the sources. *)
Definition Authenticate (next : Handler) : Handler :=
  fun r x =>
    match http.Cookie_ r sessionCookie with
    | inr _ => Done (respond http.StatusUnauthorized x)
    | inl cookie =>
        match Lookup (http.Value cookie) with
        | None => Done (respond http.StatusUnauthorized x)
        | Some id => next (attach id r) x
        end
    end.

(** Modelled from the spec: the Role Authorization Middleware of
    section 4.4 for a permitted-role set. It reads the attached
    identity, fails with [IdentityNotPresent] when there is none,
    answers 403 on a role outside the set and otherwise runs the wrapped
    handler unchanged. The package [middleware] is missing from the
    sources. *)
Definition RequireRole (permitted : list Role) (next : Handler) : Handler :=
  fun r x =>
    match http.identity r with
    | None => Fault IdentityNotPresent
    | Some id =>
        if bool_decide (role id ∈ permitted) then next r x
        else Done (respond http.StatusForbidden x)
    end.

(** Modelled from the spec: [middleware.AdminOnly], the role gate of the
    admin routes (section 4.4, "admin-only"). The package [middleware]
    is missing from the sources. *)
Definition AdminOnly (next : Handler) : Handler :=
  RequireRole [RoleAdmin] next.

(** Modelled from the spec: the CORS middleware of section 2 decorates
    the response with cross-origin headers ([decorate]) and hands the
    request on. The package [middleware] is missing from the sources. *)
Definition CORS (decorate : http.ResponseWriter -> http.ResponseWriter)
    (next : Handler) : Handler :=
  fun r x => next r {| writer := decorate (writer x); invoked := invoked x |}.

(** Modelled from the spec: the handler a route expression of [main]
    denotes, each constructor read as the middleware of that name. The
    package [middleware] is missing from the sources. *)
Fixpoint handler
    (behaviour : string -> http.Request -> http.ResponseWriter -> http.ResponseWriter)
    (decorate : http.ResponseWriter -> http.ResponseWriter)
    (h : route.Handler) : Handler :=
  match h with
  | route.HandlerFunc f => HandlerFunc behaviour f
  | route.Authenticate next => Authenticate (handler behaviour decorate next)
  | route.AdminOnly next => AdminOnly (handler behaviour decorate next)
  | route.CORS next => CORS decorate (handler behaviour decorate next)
  end.

End Pipeline.

End middleware.

(** ** Altering one octet of a text *)

(** The text [s] with its octet at index [i] replaced by [b]; [s] itself
    when it has no such index. *)
Definition alterByte (i : nat) (b : ascii) (s : string) : string :=
  string_of_list_ascii (<[i := b]> (list_ascii_of_string s)).

(** ** Sample data for the worked examples *)

Module sample.

(** An entropy source that delivers the octets 0, 1, 2, ... *)
Definition stream (i : nat) : byte :=
  match Byte.of_N (N.of_nat i) with
  | Some b => b
  | None => x00
  end.

Definition failure : error := errors_New "read /dev/urandom: resource unavailable".

(** A clock reading: 1 700 000 000 seconds after the epoch. *)
Definition clock : N := 1700000000000000000%N.

(** A response on which nothing was written yet. *)
Definition fresh : http.ResponseWriter :=
  {| http.SetCookies := []; http.status := None |}.

(** The token issued from [stream]. *)
Definition token : string :=
  fst (snd (utils.SetCSRFToken (rand.Entropy stream) clock fresh)).

(** [token] with its last octet, the padding, changed. *)
Definition altered : string := alterByte 43 "-" token.

(** A request with the given form value and cookie value for
    [csrf_token], each possibly absent. *)
Definition request (field cookie : option string) : http.Request :=
  {| http.Form := match field with
                  | Some v => {[ "csrf_token" := [v] ]}
                  | None => ∅
                  end;
     http.Cookies := match cookie with
                     | Some v => [("csrf_token", v)]
                     | None => []
                     end;
     http.identity := None |}.

Definition sessionCookie : string := "session_id".

Definition admin : Identity := {| userID := 1; role := RoleAdmin |}.
Definition buyer : Identity := {| userID := 7; role := RoleBuyer |}.

(** A session store with two live sessions. *)
Definition Lookup (sessionID : string) : option Identity :=
  if String.eqb sessionID "s-admin" then Some admin
  else if String.eqb sessionID "s-buyer" then Some buyer
  else None.

(** A request carrying the session cookie [sid], if any. *)
Definition visit (sid : option string) : http.Request :=
  {| http.Form := ∅;
     http.Cookies := match sid with
                     | Some v => [("theme", "dark"); (sessionCookie, v)]
                     | None => [("theme", "dark")]
                     end;
     http.identity := None |}.

Definition start : middleware.Exchange :=
  {| middleware.writer := fresh; middleware.invoked := [] |}.

(** A domain handler that answers 200. *)
Definition behaviour (f : string) (r : http.Request) (w : http.ResponseWriter)
  : http.ResponseWriter :=
  {| http.SetCookies := http.SetCookies w; http.status := Some 200 |}.

End sample.

(** ** Text as Go slices it *)

Module gostring.

(** [len(s)] *)
Definition len (s : string) : Z := Z.of_nat (String.length s).

(** The slice expression [s[:hi]]: [None] stands for the run-time panic
    "slice bounds out of range" that Go raises when [hi] is negative or
    beyond the length. *)
Definition sliceTo (s : string) (hi : Z) : option string :=
  if (0 <=? hi) && (hi <=? len s)
  then Some (string_of_list_ascii (take (Z.to_nat hi) (list_ascii_of_string s)))
  else None.

(** [err.Error()] of an error made by [errors.New] or [fmt.Errorf]. *)
Definition Error (e : error) : string :=
  match e with errors_New msg => msg end.

(** [fmt.Errorf(prefix + "%v", err)] *)
Definition Errorf_v (prefix : string) (err : error) : error :=
  errors_New (prefix ++ Error err).

End gostring.

(** ** path/filepath, with the separator of Unix *)

Module filepath.

Definition isPathSeparator (c : ascii) : bool := Ascii.eqb c "/"%char.

(** On the reversed path: the loop that strips the trailing separators. *)
Fixpoint stripSeparators (rpath : list ascii) : list ascii :=
  match rpath with
  | c :: rest => if isPathSeparator c then stripSeparators rest else rpath
  | [] => []
  end.

(** On the reversed path: the loop that walks back to the last separator;
    what it passes is the last element, reversed. *)
Fixpoint lastElement (rpath : list ascii) : list ascii :=
  match rpath with
  | c :: rest => if isPathSeparator c then [] else c :: lastElement rest
  | [] => []
  end.

(** [filepath.Base(path)]: the last element of the path, ["."] for the
    empty path and ["/"] for a path of separators only. *)
Definition Base (path : string) : string :=
  if String.eqb path EmptyString then "."
  else
    let stripped := stripSeparators (rev (list_ascii_of_string path)) in
    let element := rev (lastElement stripped) in
    if base64.isNil element then "/" else string_of_list_ascii element.

End filepath.

(** A text without a path separator. *)
Definition plain_chars (l : list ascii) : Prop :=
  forall c, In c l -> filepath.isPathSeparator c = false.

(** A text made of path separators only. *)
Definition slash_chars (l : list ascii) : Prop :=
  forall c, In c l -> c = "/"%char.

(** ** html/template, as far as [parseTemplates] looks at it *)

Module template.

(** A parsed template: its name ([tmpl.Name()]) and its text. *)
Record Template : Type := mkTemplate {
  Name : string;
  text : string
}.

End template.

(** ** [parseTemplates], in the two states of [main.go]

    [ParseGlob] stands for [template.ParseGlob] followed by [Templates()]:
    for a pattern it gives the templates in the order the loop will meet
    them, or the error of the parse. [Abs] stands for [filepath.Abs]. The
    outer [None] of the result is the run-time panic of the slice
    expression; otherwise the result is the pair Go returns, [None] in
    first place being the [nil] map. *)

Module templates.

(** The key of the loop body: the base name without its last five octets,
    the length of [".html"]. *)
Definition key (tmpl : template.Template) : option string :=
  let name := template.Name tmpl in
  let base := filepath.Base name in
  gostring.sliceTo base (gostring.len base - gostring.len ".html").

(** The [for ... range templates.Templates()] loop. *)
Fixpoint collect (tmpls : list template.Template)
    (tmplMap : gmap string template.Template)
  : option (gmap string template.Template) :=
  match tmpls with
  | [] => Some tmplMap
  | tmpl :: rest =>
      match key tmpl with
      | Some k => collect rest (<[k := tmpl]> tmplMap)
      | None => None
      end
  end.

(** [parseTemplates] of the later [main.go]. *)
Definition parseTemplates (Abs : string -> string + error)
    (ParseGlob : string -> list template.Template + error) (pattern : string)
  : option (option (gmap string template.Template) * option error) :=
  let tmplMap : gmap string template.Template := ∅ in
  match Abs pattern with
  | inr err =>
      Some (None, Some (gostring.Errorf_v "error resolving absolute path: " err))
  | inl absPattern =>
      match ParseGlob absPattern with
      | inr err => Some (None, Some (gostring.Errorf_v "error parsing templates: " err))
      | inl tmpls =>
          match collect tmpls tmplMap with
          | Some filled => Some (Some filled, None)
          | None => None
          end
      end
  end.

End templates.

Module templates_earlier.

(** [parseTemplates] of the earlier [main.go]: the pattern is used as it
    is and the error of the parse is returned as it is. *)
Definition parseTemplates
    (ParseGlob : string -> list template.Template + error) (pattern : string)
  : option (option (gmap string template.Template) * option error) :=
  let tmplMap : gmap string template.Template := ∅ in
  match ParseGlob pattern with
  | inr err => Some (None, Some err)
  | inl tmpls =>
      match templates.collect tmpls tmplMap with
      | Some filled => Some (Some filled, None)
      | None => None
      end
  end.

End templates_earlier.

(** ** The middleware chain of a route *)

Module chain.

Inductive Middleware : Type := MCORS | MAuthenticate | MAdminOnly.

#[global] Instance Middleware_eq_dec : EqDecision Middleware.
Proof. solve_decision. Defined.

(** The middleware of a route expression, outermost first. *)
Fixpoint wrappers (h : route.Handler) : list Middleware :=
  match h with
  | route.HandlerFunc _ => []
  | route.Authenticate next => MAuthenticate :: wrappers next
  | route.AdminOnly next => MAdminOnly :: wrappers next
  | route.CORS next => MCORS :: wrappers next
  end.

(** The function at the core of a route expression. *)
Fixpoint core (h : route.Handler) : string :=
  match h with
  | route.HandlerFunc f => f
  | route.Authenticate next => core next
  | route.AdminOnly next => core next
  | route.CORS next => core next
  end.

(** The handler functions that [main] registers without
    [Authenticate]. *)
Definition public : list string :=
  [ "http.NotFound"; "adminHandler.Root";
    "adminHandler.Register"; "adminHandler.Login";
    "buyerHandler.Register"; "buyerHandler.Login";
    "farmerHandler.Register"; "farmerHandler.Login";
    "productHandler.GetProductDetails" ].

End chain.

#[global] Instance route_Handler_eq_dec : EqDecision route.Handler.
Proof. solve_decision. Defined.

(** ** Registration on the default [ServeMux] *)

Module servemux.

(** The pattern map [mux.m] of a [ServeMux], with the handler a route
    expression. Registration also keeps a list of the patterns that end in
    a slash and a flag for host patterns; neither has a part in whether a
    registration panics, and they are left out here. *)
Abbreviation ServeMux := (gmap string route.Handler).

(** [mux.Handle(pattern, handler)]: [None] is the panic Go raises on an
    empty pattern ("http: invalid pattern") or on a pattern that is
    registered already ("http: multiple registrations for ..."). *)
Definition Handle (mux : ServeMux) (pattern : string) (handler : route.Handler)
  : option ServeMux :=
  if String.eqb pattern EmptyString then None
  else match mux !! pattern with
       | Some _ => None
       | None => Some (<[pattern := handler]> mux)
       end.

(** The calls of [http.Handle] and [http.HandleFunc] that [main] makes, in
    the order of the table. *)
Fixpoint HandleAll (mux : ServeMux) (table : route.Table) : option ServeMux :=
  match table with
  | [] => Some mux
  | (pattern, handler) :: rest =>
      match Handle mux pattern handler with
      | Some mux' => HandleAll mux' rest
      | None => None
      end
  end.

End servemux.

(** ** More sample data *)

Module sample2.

Definition login : template.Template :=
  {| template.Name := "login.html"; template.text := "<form>login</form>" |}.

Definition dashboard : template.Template :=
  {| template.Name := "dashboard.html"; template.text := "<h1>dashboard</h1>" |}.

(** A template brought in by a [define] block: its name has no
    extension. *)
Definition nav : template.Template :=
  {| template.Name := "nav"; template.text := "<nav></nav>" |}.

Definition sidebar : template.Template :=
  {| template.Name := "sidebar"; template.text := "<aside></aside>" |}.

(** A [define] block whose name, cut by five octets, gives the key of
    [login] too. *)
Definition login_form : template.Template :=
  {| template.Name := "login-form"; template.text := "<form>fields</form>" |}.

Definition Abs (pattern : string) : string + error := inl ("/srv/fms/" ++ pattern).

Definition ParseGlob (tmpls : list template.Template) (pattern : string)
  : list template.Template + error :=
  if String.eqb (filepath.Base pattern) "*.html" then inl tmpls
  else inr (errors_New "html/template: pattern matches no files").

(** The map [parseTemplates] builds from [login_form], [dashboard] and
    [login], met in this order. *)
Definition filed : gmap string template.Template :=
  <["login" := login]> (<["dashboard" := dashboard]> (<["login" := login_form]> ∅)).

(** An entropy source that delivers the octet [b] over and over. *)
Definition constant (b : byte) : nat -> byte := fun _ => b.

End sample2.

(** * Properties *)

(** ** Octets and bit arithmetic *)

Lemma octet_toZ_range (b : byte) : 0 <= octet.toZ b < 256.
Proof.
  unfold octet.toZ. pose proof (Byte.to_N_bounded b) as H. lia.
Qed.

Lemma land_255 (v : Z) : Z.land v 255 = v mod 256.
Proof. change 255 with (Z.ones 8). rewrite Z.land_ones by lia. reflexivity. Qed.

Lemma land_63 (v : Z) : Z.land v 63 = v mod 64.
Proof. change 63 with (Z.ones 6). rewrite Z.land_ones by lia. reflexivity. Qed.

Lemma octet_ofZ_mod (v : Z) (b : byte) : v mod 256 = octet.toZ b -> octet.ofZ v = b.
Proof.
  intros H. unfold octet.ofZ. rewrite land_255, H. unfold octet.toZ.
  rewrite N2Z.id, Byte.of_to_N. reflexivity.
Qed.

Lemma octet_ofZ_toZ (b : byte) : octet.ofZ (octet.toZ b) = b.
Proof. apply octet_ofZ_mod, Z.mod_small, octet_toZ_range. Qed.

(** A value shifted left by [n] and or-ed with one below [2^n] is their
    sum: the two occupy different bits. *)
Lemma lor_shiftl_low (hi lo n : Z) :
  0 <= n -> 0 <= lo < 2 ^ n -> Z.lor (Z.shiftl hi n) lo = hi * 2 ^ n + lo.
Proof.
  intros Hn Hlo.
  assert (Hdisj : Z.land (Z.shiftl hi n) lo = 0).
  { apply Z.bits_inj'. intros i Hi. rewrite Z.land_spec, Z.bits_0.
    destruct (Z.lt_ge_cases i n) as [Hlt | Hge].
    - rewrite Z.shiftl_spec_low by assumption. reflexivity.
    - replace lo with (lo mod 2 ^ n) by (apply Z.mod_small; assumption).
      rewrite Z.mod_pow2_bits_high by lia. apply andb_false_r. }
  rewrite <- Z.lxor_lor by assumption.
  rewrite <- Z.add_nocarry_lxor by assumption.
  rewrite Z.shiftl_mul_pow2 by assumption. reflexivity.
Qed.

(** Induction on a list three elements at a time, the step of the encoder. *)
Lemma list_ind3 {A} (P : list A -> Prop) :
  P [] -> (forall a, P [a]) -> (forall a b, P [a; b]) ->
  (forall a b c l, P l -> P (a :: b :: c :: l)) ->
  forall l, P l.
Proof.
  intros H0 H1 H2 H3 l.
  enough (H : P l /\ (forall a, P (a :: l)) /\ (forall a b, P (a :: b :: l))) by apply H.
  induction l as [| x l [IH0 [IH1 IH2]]].
  - repeat split; auto.
  - repeat split; auto.
Qed.

(** ** The base64 alphabet *)

Lemma below_64 (P : Z -> bool) :
  forallb P (List.map Z.of_nat (seq 0 64)) = true ->
  forall i, 0 <= i < 64 -> P i = true.
Proof.
  intros H i Hi. rewrite forallb_forall in H. apply H.
  apply in_map_iff. exists (Z.to_nat i). split; [lia |].
  apply in_seq. lia.
Qed.

Lemma decodeMap_encode (i : Z) :
  0 <= i < 64 -> base64.decodeMap (base64.encode i) = Some i.
Proof.
  intros Hi.
  pose proof (below_64
    (fun j => match base64.decodeMap (base64.encode j) with
              | Some k => k =? j
              | None => false
              end) eq_refl i Hi) as H.
  cbv beta in H. destruct (base64.decodeMap (base64.encode i)); [| discriminate].
  apply Z.eqb_eq in H. congruence.
Qed.

Lemma decodeMap_padding : base64.decodeMap base64.StdPadding = None.
Proof. reflexivity. Qed.

Lemma sextet_range (v : Z) : 0 <= Z.land v 63 < 64.
Proof. rewrite land_63. apply Z.mod_pos_bound. lia. Qed.

(** Whatever holds of the 64 letters of the alphabet holds of every
    character the encoder looks up. *)
Lemma sextet_forall (P : ascii -> bool) (val shift : Z) :
  forallb P (list_ascii_of_string base64.encodeStd) = true ->
  P (base64.sextet val shift) = true.
Proof.
  intros H. rewrite forallb_forall in H. apply H.
  unfold base64.sextet, base64.encode. apply nth_In.
  pose proof (sextet_range (Z.shiftr val shift)). cbn. lia.
Qed.

Lemma Encode_forall (P : ascii -> bool) (src : list byte) :
  forallb P (list_ascii_of_string base64.encodeStd) = true ->
  P base64.StdPadding = true ->
  forallb P (base64.Encode src) = true.
Proof.
  intros Halpha Hpad.
  induction src as [| b0 | b0 b1 | b0 b1 b2 rest IH] using list_ind3; cbn [base64.Encode forallb];
    rewrite ?sextet_forall, ?Hpad, ?IH by assumption; reflexivity.
Qed.

(** ** Decoding undoes encoding *)

Lemma decodeMap_sextet (val shift : Z) :
  0 <= shift ->
  base64.decodeMap (base64.sextet val shift) = Some ((val / 2 ^ shift) mod 64).
Proof.
  intros Hs. unfold base64.sextet. rewrite decodeMap_encode by apply sextet_range.
  rewrite land_63, Z.shiftr_div_pow2 by assumption. reflexivity.
Qed.

Lemma pack2 (b0 b1 : byte) :
  Z.lor (Z.shiftl (octet.toZ b0) 16) (Z.shiftl (octet.toZ b1) 8)
  = octet.toZ b0 * 65536 + octet.toZ b1 * 256.
Proof.
  pose proof (octet_toZ_range b1).
  rewrite (Z.shiftl_mul_pow2 _ 8) by lia.
  rewrite lor_shiftl_low by lia. lia.
Qed.

Lemma pack3 (b0 b1 b2 : byte) :
  Z.lor (Z.shiftl (octet.toZ b0) 16) (Z.lor (Z.shiftl (octet.toZ b1) 8) (octet.toZ b2))
  = octet.toZ b0 * 65536 + octet.toZ b1 * 256 + octet.toZ b2.
Proof.
  pose proof (octet_toZ_range b1). pose proof (octet_toZ_range b2).
  rewrite (lor_shiftl_low _ _ 8) by lia.
  rewrite lor_shiftl_low by lia. lia.
Qed.

Lemma unpack2 (s0 s1 : Z) :
  0 <= s1 < 64 ->
  Z.lor (Z.shiftl s0 18) (Z.shiftl s1 12) = s0 * 262144 + s1 * 4096.
Proof.
  intros H1. rewrite (Z.shiftl_mul_pow2 _ 12) by lia.
  rewrite lor_shiftl_low by lia. lia.
Qed.

Lemma unpack3 (s0 s1 s2 : Z) :
  0 <= s1 < 64 -> 0 <= s2 < 64 ->
  Z.lor (Z.shiftl s0 18) (Z.lor (Z.shiftl s1 12) (Z.shiftl s2 6))
  = s0 * 262144 + s1 * 4096 + s2 * 64.
Proof.
  intros H1 H2. rewrite (Z.shiftl_mul_pow2 _ 6) by lia.
  rewrite (lor_shiftl_low _ _ 12) by lia.
  rewrite lor_shiftl_low by lia. lia.
Qed.

Lemma unpack4 (s0 s1 s2 s3 : Z) :
  0 <= s1 < 64 -> 0 <= s2 < 64 -> 0 <= s3 < 64 ->
  Z.lor (Z.shiftl s0 18) (Z.lor (Z.shiftl s1 12) (Z.lor (Z.shiftl s2 6) s3))
  = s0 * 262144 + s1 * 4096 + s2 * 64 + s3.
Proof.
  intros H1 H2 H3. rewrite (lor_shiftl_low _ _ 6) by lia.
  rewrite (lor_shiftl_low _ _ 12) by lia.
  rewrite lor_shiftl_low by lia. lia.
Qed.

(** The four sextets of a 24-bit value put it together again. *)
Lemma regroup (val : Z) :
  0 <= val < 16777216 ->
  (val / 262144) mod 64 * 262144 + (val / 4096) mod 64 * 4096
  + (val / 64) mod 64 * 64 + (val / 1) mod 64 = val.
Proof. intros H. Z.to_euclidean_division_equations; lia. Qed.

Lemma split3 (b0 b1 b2 : Z) :
  0 <= b0 < 256 -> 0 <= b1 < 256 -> 0 <= b2 < 256 ->
  let val := b0 * 65536 + b1 * 256 + b2 in
  (val / 65536) mod 256 = b0 /\ (val / 256) mod 256 = b1 /\ val mod 256 = b2.
Proof.
  intros H0 H1 H2 val. subst val.
  repeat split; Z.to_euclidean_division_equations; lia.
Qed.

(** One full quantum: the three octets packed into four characters come
    back out of the four characters. *)
Lemma quantum_roundtrip (b0 b1 b2 : byte) :
  let val := octet.toZ b0 * 65536 + octet.toZ b1 * 256 + octet.toZ b2 in
  let v := (val / 262144) mod 64 * 262144 + (val / 4096) mod 64 * 4096
           + (val / 64) mod 64 * 64 + (val / 1) mod 64 in
  octet.ofZ (Z.shiftr v 16) = b0 /\ octet.ofZ (Z.shiftr v 8) = b1 /\ octet.ofZ v = b2.
Proof.
  pose proof (octet_toZ_range b0) as H0. pose proof (octet_toZ_range b1) as H1.
  pose proof (octet_toZ_range b2) as H2. intros val v.
  assert (Hv : v = val) by (apply regroup; subst val; lia).
  rewrite Hv. destruct (split3 _ _ _ H0 H1 H2) as (E0 & E1 & E2). fold val in E0, E1, E2.
  repeat split; apply octet_ofZ_mod; rewrite ?Z.shiftr_div_pow2 by lia; assumption.
Qed.

Lemma tail1_roundtrip (b0 : byte) :
  let val := octet.toZ b0 * 65536 in
  let v := (val / 262144) mod 64 * 262144 + (val / 4096) mod 64 * 4096 in
  octet.ofZ (Z.shiftr v 16) = b0.
Proof.
  pose proof (octet_toZ_range b0) as H0. intros val v.
  apply octet_ofZ_mod. rewrite Z.shiftr_div_pow2 by lia.
  change (2 ^ 16) with 65536. subst v val.
  Z.to_euclidean_division_equations; lia.
Qed.

Lemma tail2_roundtrip (b0 b1 : byte) :
  let val := octet.toZ b0 * 65536 + octet.toZ b1 * 256 in
  let v := (val / 262144) mod 64 * 262144 + (val / 4096) mod 64 * 4096
           + (val / 64) mod 64 * 64 in
  octet.ofZ (Z.shiftr v 16) = b0 /\ octet.ofZ (Z.shiftr v 8) = b1.
Proof.
  pose proof (octet_toZ_range b0) as H0. pose proof (octet_toZ_range b1) as H1.
  intros val v.
  assert (Hv : v = val).
  { rewrite <- (regroup val) by (subst val; lia). subst v.
    assert ((val / 1) mod 64 = 0) by (subst val; Z.to_euclidean_division_equations; lia).
    lia. }
  rewrite Hv.
  split; apply octet_ofZ_mod; rewrite Z.shiftr_div_pow2 by lia;
    [change (2 ^ 16) with 65536 | change (2 ^ 8) with 256];
    subst val; Z.to_euclidean_division_equations; lia.
Qed.

Ltac quantum_norm :=
  rewrite ?decodeMap_sextet, ?decodeMap_padding by lia;
  change (2 ^ 18) with 262144; change (2 ^ 12) with 4096;
  change (2 ^ 6) with 64; change (2 ^ 0) with 1;
  cbv beta iota zeta.

(** [decodeQuanta] undoes [Encode] on every input. *)
Lemma decodeQuanta_Encode (src : list byte) :
  base64.decodeQuanta (base64.Encode src) = Some src.
Proof.
  induction src as [| b0 | b0 b1 | b0 b1 b2 rest IH] using list_ind3.
  - reflexivity.
  - cbn [base64.Encode base64.decodeQuanta]. quantum_norm.
    rewrite Ascii.eqb_refl. cbn [andb base64.isNil].
    rewrite unpack2 by (apply Z.mod_pos_bound; lia).
    rewrite Z.shiftl_mul_pow2 by lia. change (2 ^ 16) with 65536.
    rewrite tail1_roundtrip. reflexivity.
  - cbn [base64.Encode base64.decodeQuanta]. quantum_norm.
    rewrite Ascii.eqb_refl. cbn [andb base64.isNil].
    rewrite unpack3 by (apply Z.mod_pos_bound; lia).
    rewrite pack2.
    destruct (tail2_roundtrip b0 b1) as [E0 E1]. cbv zeta in E0, E1.
    rewrite E0, E1. reflexivity.
  - cbn [base64.Encode base64.decodeQuanta]. quantum_norm.
    rewrite IH.
    rewrite unpack4 by (apply Z.mod_pos_bound; lia).
    rewrite pack3.
    destruct (quantum_roundtrip b0 b1 b2) as (E0 & E1 & E2). cbv zeta in E0, E1, E2.
    rewrite E0, E1, E2. reflexivity.
Qed.

Lemma filter_all {A} (P : A -> bool) (l : list A) :
  forallb P l = true -> List.filter P l = l.
Proof.
  induction l as [| a l IH]; cbn; [reflexivity |].
  intros H. apply andb_true_iff in H as [Ha Hl]. rewrite Ha, IH by assumption.
  reflexivity.
Qed.

Lemma existsb_none {A} (P : A -> bool) (l : list A) :
  forallb (fun a => negb (P a)) l = true -> existsb P l = false.
Proof.
  induction l as [| a l IH]; cbn; [reflexivity |].
  intros H. apply andb_true_iff in H as [Ha Hl].
  apply negb_true_iff in Ha. rewrite Ha, IH by assumption. reflexivity.
Qed.

(** Every token decodes to the octets it was made from. *)
Lemma DecodeString_EncodeToString (src : list byte) :
  base64.DecodeString (base64.EncodeToString src) = Some src.
Proof.
  unfold base64.DecodeString, base64.EncodeToString.
  rewrite list_ascii_of_string_of_list_ascii.
  rewrite filter_all by (apply Encode_forall; reflexivity).
  apply decodeQuanta_Encode.
Qed.

Lemma Encode_length (src : list byte) :
  Z.of_nat (List.length (base64.Encode src))
  = 4 * ((Z.of_nat (List.length src) + 2) / 3).
Proof.
  induction src as [| b0 | b0 b1 | b0 b1 b2 rest IH] using list_ind3;
    try reflexivity.
  cbn [base64.Encode List.length]. cbv zeta. cbn [List.length].
  rewrite !Nat2Z.inj_succ, IH.
  Z.to_euclidean_division_equations; lia.
Qed.

Lemma string_length_of_list (l : list ascii) :
  String.length (string_of_list_ascii l) = List.length l.
Proof. induction l as [| a l IH]; cbn; [reflexivity | now rewrite IH]. Qed.

Lemma EncodeToString_length (src : list byte) :
  Z.of_nat (String.length (base64.EncodeToString src))
  = 4 * ((Z.of_nat (List.length src) + 2) / 3).
Proof.
  unfold base64.EncodeToString. rewrite string_length_of_list. apply Encode_length.
Qed.

Lemma EncodeToString_nonempty (src : list byte) :
  src <> [] -> base64.EncodeToString src <> EmptyString.
Proof.
  intros Hne Heq. apply (f_equal String.length) in Heq.
  pose proof (EncodeToString_length src) as Hlen. rewrite Heq in Hlen.
  destruct src as [| b src]; [congruence |].
  cbn [List.length String.length] in Hlen. rewrite Nat2Z.inj_succ in Hlen.
  revert Hlen. Z.to_euclidean_division_equations; lia.
Qed.

(** A token passes through the cookie-value sanitizer untouched: its
    characters are all valid cookie octets, none a space or a comma. *)
Lemma sanitizeCookieValue_token (src : list byte) :
  http.sanitizeCookieValue (base64.EncodeToString src) = base64.EncodeToString src.
Proof.
  unfold http.sanitizeCookieValue, http.sanitizeOrWarn, base64.EncodeToString.
  rewrite list_ascii_of_string_of_list_ascii.
  rewrite filter_all by (apply Encode_forall; reflexivity).
  rewrite list_ascii_of_string_of_list_ascii.
  rewrite existsb_none by (apply Encode_forall; reflexivity).
  destruct (String.eqb _ _); reflexivity.
Qed.

(** ** The entropy source *)

Lemma Read_ok_length (rd : rand.Reader) (b b' : list byte) (n : nat) :
  rand.Read rd b = (b', (n, None)) -> List.length b' = List.length b /\ n = List.length b.
Proof.
  destruct rd as [stream | err]; cbn; intros H; inversion H; subst.
  rewrite length_map, length_seq. split; reflexivity.
Qed.

(** ** SetCSRFToken *)

(** What [SetCSRFToken] does when the entropy source delivers: the token is
    the encoding of the 32 octets read, and one [Set-Cookie] line carrying
    it is appended to the header. *)
Lemma SetCSRFToken_Entropy (stream : nat -> byte) (clock : N) (w : http.ResponseWriter) :
  let token := base64.EncodeToString (List.map stream (seq 0 32)) in
  utils.SetCSRFToken (rand.Entropy stream) clock w
  = ({| http.SetCookies :=
          http.SetCookies w
          ++ [ {| http.Name := "csrf_token";
                  http.Value := token;
                  http.Path := "/";
                  http.Expires := Some (Z.of_N clock + 86400000000000);
                  http.HttpOnly := true;
                  http.Secure := true;
                  http.SameSiteMode := http.SameSiteNoneMode |} ];
        http.status := http.status w |},
     (token, None)).
Proof.
  intros token. unfold utils.SetCSRFToken, rand.Read.
  rewrite repeat_length. fold token.
  unfold http.SetCookie, http.Cookie_String.
  cbn [http.Name http.Value http.Path http.Expires http.HttpOnly http.Secure
       http.SameSiteMode].
  change (http.isCookieNameValid "csrf_token") with true. cbv iota.
  unfold token at 1. rewrite sanitizeCookieValue_token. fold token.
  change (http.sanitizeCookiePath "/") with "/".
  assert (Hexp : http.validCookieExpires
                   (time.Add (time.Now clock) (24 * time.Hour)) = true).
  { unfold http.validCookieExpires, time.Add, time.Now.
    apply Z.leb_le. change time.year1601 with (-11644473600000000000).
    change (24 * time.Hour) with 86400000000000. lia. }
  rewrite Hexp. reflexivity.
Qed.

Lemma SetCSRFToken_Unavailable (err : error) (clock : N) (w : http.ResponseWriter) :
  utils.SetCSRFToken (rand.Unavailable err) clock w = (w, (EmptyString, Some err)).
Proof. reflexivity. Qed.

Lemma SetCSRFToken_success (rd : rand.Reader) (clock : N) (w w' : http.ResponseWriter)
    (token : string) :
  utils.SetCSRFToken rd clock w = (w', (token, None)) ->
  exists stream, rd = rand.Entropy stream
    /\ token = base64.EncodeToString (List.map stream (seq 0 32)).
Proof.
  destruct rd as [stream | err]; intros H.
  - rewrite SetCSRFToken_Entropy in H. inversion H; subst. eauto.
  - rewrite SetCSRFToken_Unavailable in H. discriminate.
Qed.

Lemma token_nonempty (stream : nat -> byte) :
  base64.EncodeToString (List.map stream (seq 0 32)) <> EmptyString.
Proof. apply EncodeToString_nonempty. discriminate. Qed.

(** ** ValidateCSRFToken *)

Lemma String_eqb_false (s t : string) : s <> t -> String.eqb s t = false.
Proof. intros H. apply String.eqb_neq. exact H. Qed.

Lemma Validate_missing_field (r : http.Request) :
  http.FormValue r "csrf_token" = EmptyString ->
  utils.ValidateCSRFToken r = Some utils.CSRFMissingField.
Proof. intros H. unfold utils.ValidateCSRFToken. rewrite H. reflexivity. Qed.

Lemma Validate_missing_cookie (r : http.Request) (e : error) :
  http.FormValue r "csrf_token" <> EmptyString ->
  http.Cookie_ r "csrf_token" = inr e ->
  utils.ValidateCSRFToken r = Some utils.CSRFMissingCookie.
Proof.
  intros Hf Hc. unfold utils.ValidateCSRFToken.
  rewrite (String_eqb_false _ _ Hf), Hc. reflexivity.
Qed.

Lemma Validate_mismatch (r : http.Request) (c : http.Cookie) :
  http.FormValue r "csrf_token" <> EmptyString ->
  http.Cookie_ r "csrf_token" = inl c ->
  http.FormValue r "csrf_token" <> http.Value c ->
  utils.ValidateCSRFToken r = Some utils.CSRFMismatch.
Proof.
  intros Hf Hc Hne. unfold utils.ValidateCSRFToken.
  rewrite (String_eqb_false _ _ Hf), Hc, (String_eqb_false _ _ Hne). reflexivity.
Qed.

Lemma Validate_match (r : http.Request) (c : http.Cookie) :
  http.FormValue r "csrf_token" <> EmptyString ->
  http.Cookie_ r "csrf_token" = inl c ->
  http.FormValue r "csrf_token" = http.Value c ->
  utils.ValidateCSRFToken r = None.
Proof.
  intros Hf Hc Heq. unfold utils.ValidateCSRFToken.
  rewrite (String_eqb_false _ _ Hf), Hc, Heq, String.eqb_refl. reflexivity.
Qed.

(** The form value is empty exactly when the field is absent (no entry, or
    an entry without values) or its first value is the empty text. *)
Lemma FormValue_empty_iff (r : http.Request) (key : string) :
  http.FormValue r key = EmptyString
  <-> http.Form r !! key = None
      \/ http.Form r !! key = Some []
      \/ exists rest, http.Form r !! key = Some (EmptyString :: rest).
Proof.
  unfold http.FormValue. destruct (http.Form r !! key) as [[| v vs] |].
  - split; [intros _; right; left; reflexivity | reflexivity].
  - split.
    + intros ->. right. right. exists vs. reflexivity.
    + intros [H | [H | [rest H]]]; congruence.
  - split; [intros _; left; reflexivity | reflexivity].
Qed.

(** [r.Cookie] fails exactly when no cookie of the request has the name. *)
Lemma Cookie_absent_iff (r : http.Request) (name : string) :
  name <> EmptyString ->
  (exists e, http.Cookie_ r name = inr e)
  <-> forall v : string, ~ In (name, v) (http.Cookies r).
Proof.
  intros Hname. unfold http.Cookie_. rewrite (String_eqb_false _ _ Hname).
  destruct (List.find _ (http.Cookies r)) as [[n v] |] eqn:Hfind.
  - split.
    + intros [e He]. discriminate.
    + intros Hnone. apply find_some in Hfind as [Hin Heq]. cbn in Heq.
      apply String.eqb_eq in Heq. subst n. destruct (Hnone v Hin).
  - split; [| intros _; eexists; reflexivity].
    intros _ v Hin. pose proof (find_none _ _ Hfind _ Hin) as Hneq. cbn in Hneq.
    rewrite String.eqb_refl in Hneq. discriminate.
Qed.

(** [r.Cookie] returns the value of the first cookie with the name. *)
Lemma Cookie_present (r : http.Request) (name : string) (c : http.Cookie) :
  http.Cookie_ r name = inl c ->
  http.Name c = name /\ In (name, http.Value c) (http.Cookies r).
Proof.
  unfold http.Cookie_. destruct (String.eqb name EmptyString); [discriminate |].
  destruct (List.find _ (http.Cookies r)) as [[n v] |] eqn:Hfind; [| discriminate].
  intros H. inversion H; subst. cbn.
  apply find_some in Hfind as [Hin Heq]. cbn in Heq. apply String.eqb_eq in Heq.
  subst n. split; [reflexivity | exact Hin].
Qed.

(** ** Altered tokens *)

Lemma string_get_lookup (s : string) (i : nat) :
  String.get i s = list_ascii_of_string s !! i.
Proof.
  revert i. induction s as [| a s IH]; intros [| i]; cbn; auto.
Qed.

Lemma list_ascii_length (s : string) :
  List.length (list_ascii_of_string s) = String.length s.
Proof. induction s as [| a s IH]; cbn; [reflexivity | now rewrite IH]. Qed.

Lemma alterByte_length (i : nat) (b : ascii) (s : string) :
  String.length (alterByte i b s) = String.length s.
Proof.
  unfold alterByte. rewrite string_length_of_list, length_insert.
  apply list_ascii_length.
Qed.

(** Replacing an octet by a different one gives a different text. *)
Lemma alterByte_differs (i : nat) (a b : ascii) (s : string) :
  String.get i s = Some a -> a <> b -> alterByte i b s <> s.
Proof.
  intros Hget Hab Heq. rewrite string_get_lookup in Hget.
  apply (f_equal list_ascii_of_string) in Heq. unfold alterByte in Heq.
  rewrite list_ascii_of_string_of_list_ascii in Heq.
  assert (Hi : (i < List.length (list_ascii_of_string s))%nat)
    by (apply lookup_lt_Some in Hget; exact Hget).
  pose proof (list_lookup_insert_eq (list_ascii_of_string s) i b Hi) as Hnew.
  rewrite Heq, Hget in Hnew. congruence.
Qed.

Lemma alterByte_nonempty (i : nat) (b : ascii) (s : string) :
  s <> EmptyString -> alterByte i b s <> EmptyString.
Proof.
  intros Hs Heq. apply (f_equal String.length) in Heq.
  rewrite alterByte_length in Heq. destruct s; [congruence | discriminate].
Qed.

Example sample_token :
  sample.token = "AAECAwQFBgcICQoLDA0ODxAREhMUFRYXGBkaGxwdHh8="
  /\ sample.altered = "AAECAwQFBgcICQoLDA0ODxAREhMUFRYXGBkaGxwdHh8-"
  /\ base64.DecodeString sample.token = Some (List.map sample.stream (seq 0 32)).
Proof. repeat split; vm_compute; reflexivity. Qed.

Example sample_requests :
  utils.ValidateCSRFToken (sample.request (Some "abc") (Some "abc")) = None
  /\ utils.ValidateCSRFToken (sample.request (Some "xyz") (Some "abc"))
     = Some utils.CSRFMismatch
  /\ utils.ValidateCSRFToken (sample.request (Some "abc") None)
     = Some utils.CSRFMissingCookie
  /\ utils.ValidateCSRFToken (sample.request None (Some "abc"))
     = Some utils.CSRFMissingField.
Proof. repeat split; vm_compute; reflexivity. Qed.

Example base64_rfc4648 :
  base64.EncodeToString [x66; x6f; x6f; x62; x61; x72] = "Zm9vYmFy"
  /\ base64.EncodeToString [x66; x6f; x6f; x62; x61] = "Zm9vYmE="
  /\ base64.EncodeToString [x66; x6f; x6f; x62] = "Zm9vYg=="
  /\ base64.DecodeString "Zm9vYmE=" = Some [x66; x6f; x6f; x62; x61]
  /\ base64.DecodeString "Zm9vYg==" = Some [x66; x6f; x6f; x62]
  /\ base64.DecodeString "Zm9vYg=" = None.
Proof. repeat split; vm_compute; reflexivity. Qed.

(** Different octets give different tokens. *)
Lemma EncodeToString_inj (src src' : list byte) :
  base64.EncodeToString src = base64.EncodeToString src' -> src = src'.
Proof.
  intros H. apply (f_equal base64.DecodeString) in H.
  rewrite !DecodeString_EncodeToString in H. congruence.
Qed.

(** Issue, then validate: a client that sends back the cookie it was
    handed, together with the token in the form field, passes. *)
Lemma issue_then_validate (stream : nat -> byte) (clock : N) (w : http.ResponseWriter)
    (form : gmap string (list string)) (id : option Identity) :
  let '(w', (token, _)) := utils.SetCSRFToken (rand.Entropy stream) clock w in
  forall c : http.Cookie,
    last (http.SetCookies w') = Some c ->
    utils.ValidateCSRFToken
      {| http.Form := <["csrf_token" := [token]]> form;
         http.Cookies := [(http.Name c, http.Value c)];
         http.identity := id |} = None.
Proof.
  rewrite SetCSRFToken_Entropy. cbn [http.SetCookies]. intros c Hlast.
  rewrite last_snoc in Hlast. inversion Hlast; subst c.
  cbn [http.Name http.Value].
  eapply Validate_match.
  - unfold http.FormValue. cbn [http.Form]. rewrite lookup_insert_eq.
    apply token_nonempty.
  - reflexivity.
  - unfold http.FormValue. cbn [http.Form]. rewrite lookup_insert_eq. reflexivity.
Qed.

(** ** The claims on the CSRF guard *)

(** C1. Round trip: when [SetCSRFToken] succeeds and returns the token [t],
    every request whose form field [csrf_token] and whose cookie
    [csrf_token] both carry [t] passes [ValidateCSRFToken]; and every
    request in which the two are present and non-empty but differ is
    rejected with the mismatch error, as is in particular a request in
    which one of the two carries [t] and the other [t] with one octet
    altered. *)
Theorem csrf_round_trip (rd : rand.Reader) (clock : N) (w w' : http.ResponseWriter)
    (t : string) :
  utils.SetCSRFToken rd clock w = (w', (t, None)) ->
  (forall (r : http.Request) (c : http.Cookie),
      http.FormValue r "csrf_token" = t ->
      http.Cookie_ r "csrf_token" = inl c ->
      http.Value c = t ->
      utils.ValidateCSRFToken r = None)
  /\ (forall (r : http.Request) (c : http.Cookie),
      http.FormValue r "csrf_token" <> EmptyString ->
      http.Cookie_ r "csrf_token" = inl c ->
      http.Value c <> EmptyString ->
      http.FormValue r "csrf_token" <> http.Value c ->
      utils.ValidateCSRFToken r = Some utils.CSRFMismatch)
  /\ (forall (i : nat) (a b : ascii) (r : http.Request) (c : http.Cookie),
      String.get i t = Some a -> a <> b ->
      http.Cookie_ r "csrf_token" = inl c ->
      (http.FormValue r "csrf_token" = alterByte i b t /\ http.Value c = t)
      \/ (http.FormValue r "csrf_token" = t /\ http.Value c = alterByte i b t) ->
      utils.ValidateCSRFToken r = Some utils.CSRFMismatch).
Proof.
  intros Hset. apply SetCSRFToken_success in Hset as (stream & _ & Ht).
  assert (Hne : t <> EmptyString) by (rewrite Ht; apply token_nonempty).
  split; [| split].
  - intros r c Hf Hc Hv. apply (Validate_match r c).
    + congruence.
    + exact Hc.
    + congruence.
  - intros r c Hf Hc _ Hdiff. apply (Validate_mismatch r c); assumption.
  - intros i a b r c Hget Hab Hc Hside.
    pose proof (alterByte_differs i a b t Hget Hab) as Halt.
    pose proof (alterByte_nonempty i b t Hne) as Hfull.
    apply (Validate_mismatch r c); [| exact Hc |];
      destruct Hside as [[Hf Hv] | [Hf Hv]]; congruence.
Qed.

Lemma csrf_round_trip_witness :
  utils.ValidateCSRFToken (sample.request (Some sample.token) (Some sample.token)) = None
  /\ utils.ValidateCSRFToken (sample.request (Some sample.altered) (Some sample.token))
     = Some utils.CSRFMismatch
  /\ utils.ValidateCSRFToken (sample.request (Some sample.token) (Some sample.altered))
     = Some utils.CSRFMismatch.
Proof.
  destruct (csrf_round_trip (rand.Entropy sample.stream) sample.clock sample.fresh
              _ _ eq_refl) as (Hsame & Hdiff & Haltered).
  split; [| split].
  - apply (Hsame _ (http.readCookie ("csrf_token", sample.token)));
      vm_compute; reflexivity.
  - apply (Hdiff _ (http.readCookie ("csrf_token", sample.token)));
      vm_compute; congruence.
  - apply (Haltered 43%nat "="%char "-"%char _
             (http.readCookie ("csrf_token", sample.altered))).
    + vm_compute. reflexivity.
    + discriminate.
    + vm_compute. reflexivity.
    + right. split; vm_compute; reflexivity.
Defined.

(** C2. [ValidateCSRFToken] decides in this order: an absent or empty form
    field gives the missing-field error; otherwise an absent cookie gives
    the missing-cookie error; otherwise differing values give the mismatch
    error; otherwise the call succeeds and returns no error. *)
Theorem validate_outcomes (r : http.Request) :
  (http.FormValue r "csrf_token" = EmptyString ->
     utils.ValidateCSRFToken r = Some utils.CSRFMissingField)
  /\ (forall e : error,
     http.FormValue r "csrf_token" <> EmptyString ->
     http.Cookie_ r "csrf_token" = inr e ->
     utils.ValidateCSRFToken r = Some utils.CSRFMissingCookie)
  /\ (forall c : http.Cookie,
     http.FormValue r "csrf_token" <> EmptyString ->
     http.Cookie_ r "csrf_token" = inl c ->
     http.FormValue r "csrf_token" <> http.Value c ->
     utils.ValidateCSRFToken r = Some utils.CSRFMismatch)
  /\ (forall c : http.Cookie,
     http.FormValue r "csrf_token" <> EmptyString ->
     http.Cookie_ r "csrf_token" = inl c ->
     http.FormValue r "csrf_token" = http.Value c ->
     utils.ValidateCSRFToken r = None).
Proof.
  split; [apply Validate_missing_field |].
  split; [intros e; apply Validate_missing_cookie |].
  split; intros c; [apply Validate_mismatch | apply Validate_match].
Qed.

Lemma validate_outcomes_witness :
  utils.ValidateCSRFToken (sample.request (Some EmptyString) (Some "abc"))
  = Some utils.CSRFMissingField
  /\ utils.ValidateCSRFToken (sample.request (Some "abc") None)
     = Some utils.CSRFMissingCookie
  /\ utils.ValidateCSRFToken (sample.request (Some "xyz") (Some "abc"))
     = Some utils.CSRFMismatch
  /\ utils.ValidateCSRFToken (sample.request (Some "abc") (Some "abc")) = None.
Proof.
  split; [| split; [| split]].
  - apply (proj1 (validate_outcomes _)). vm_compute; reflexivity.
  - apply (proj1 (proj2 (validate_outcomes _)) http.ErrNoCookie);
      vm_compute; congruence.
  - apply (proj1 (proj2 (proj2 (validate_outcomes _))) (http.readCookie ("csrf_token", "abc")));
      vm_compute; congruence.
  - apply (proj2 (proj2 (proj2 (validate_outcomes _))) (http.readCookie ("csrf_token", "abc")));
      vm_compute; congruence.
Defined.

(** C4. The token of [SetCSRFToken] is made of exactly 32 octets read from
    the entropy source of [crypto/rand] and encoded in standard base64:
    every token returned without an error decodes to exactly those 32
    octets. When the source fails the call returns that error and no
    token; no other source is consulted. *)
Theorem token_generator (rd : rand.Reader) (clock : N) (w : http.ResponseWriter) :
  match snd (utils.SetCSRFToken rd clock w) with
  | (token, None) =>
      exists stream : nat -> byte,
        rd = rand.Entropy stream
        /\ token = base64.EncodeToString (List.map stream (seq 0 32))
        /\ exists octets : list byte,
             base64.DecodeString token = Some octets
             /\ List.length octets = 32%nat
             /\ octets = List.map stream (seq 0 32)
  | (token, Some err) => rd = rand.Unavailable err /\ token = EmptyString
  end.
Proof.
  destruct rd as [stream | err].
  - rewrite SetCSRFToken_Entropy. cbn [snd].
    exists stream. split; [reflexivity |]. split; [reflexivity |].
    exists (List.map stream (seq 0 32)). split; [apply DecodeString_EncodeToString |].
    split; [| reflexivity]. rewrite length_map, length_seq. reflexivity.
  - rewrite SetCSRFToken_Unavailable. cbn [snd]. split; reflexivity.
Qed.

(** C5. When [SetCSRFToken] succeeds it adds exactly one [Set-Cookie] line
    to the response: named [csrf_token], with path [/], [HttpOnly] and
    [Secure] set, the cross-site-allowed [SameSite=None], an expiry 24 hours
    after the clock reading, and as value the very token the call returns.
    Nothing else on the response changes. *)
Theorem issued_cookie (rd : rand.Reader) (clock : N) (w w' : http.ResponseWriter)
    (token : string) :
  utils.SetCSRFToken rd clock w = (w', (token, None)) ->
  exists c : http.Cookie,
    http.SetCookies w' = (http.SetCookies w ++ [c])%list
    /\ http.status w' = http.status w
    /\ http.Name c = "csrf_token"
    /\ http.Value c = token
    /\ http.Path c = "/"
    /\ http.HttpOnly c = true
    /\ http.Secure c = true
    /\ http.SameSiteMode c = http.SameSiteNoneMode
    /\ http.Expires c = Some (time.Now clock + 24 * 60 * 60 * 1000000000).
Proof.
  intros Hset. destruct rd as [stream | err].
  - rewrite SetCSRFToken_Entropy in Hset. inversion Hset; subst.
    eexists. cbn [http.SetCookies http.status]. split; [reflexivity |].
    cbn. repeat split; reflexivity.
  - rewrite SetCSRFToken_Unavailable in Hset. discriminate.
Qed.

Lemma issued_cookie_witness :
  exists c : http.Cookie,
    http.SetCookies (fst (utils.SetCSRFToken (rand.Entropy sample.stream)
                            sample.clock sample.fresh)) = ([] ++ [c])%list
    /\ http.status (fst (utils.SetCSRFToken (rand.Entropy sample.stream)
                           sample.clock sample.fresh)) = None
    /\ http.Name c = "csrf_token"
    /\ http.Value c = sample.token
    /\ http.Path c = "/"
    /\ http.HttpOnly c = true
    /\ http.Secure c = true
    /\ http.SameSiteMode c = http.SameSiteNoneMode
    /\ http.Expires c = Some (time.Now sample.clock + 24 * 60 * 60 * 1000000000).
Proof.
  exact (issued_cookie (rand.Entropy sample.stream) sample.clock sample.fresh
           _ _ eq_refl).
Defined.

(** C9. Issuance is all or nothing: when the read from the entropy source
    fails, [SetCSRFToken] returns the empty token with that error and the
    response is left exactly as it was, so no cookie is set. *)
Theorem issuance_atomic (rd : rand.Reader) (clock : N) (w : http.ResponseWriter)
    (err : error) :
  snd (snd (rand.Read rd (repeat x00 32))) = Some err ->
  utils.SetCSRFToken rd clock w = (w, (EmptyString, Some err))
  /\ http.SetCookies (fst (utils.SetCSRFToken rd clock w)) = http.SetCookies w.
Proof.
  intros Hread. destruct rd as [stream | e]; cbn in Hread; [discriminate |].
  inversion Hread; subst. rewrite SetCSRFToken_Unavailable. split; reflexivity.
Qed.

Lemma issuance_atomic_witness :
  utils.SetCSRFToken (rand.Unavailable sample.failure) sample.clock sample.fresh
  = (sample.fresh, (EmptyString, Some sample.failure))
  /\ http.SetCookies (fst (utils.SetCSRFToken (rand.Unavailable sample.failure)
                             sample.clock sample.fresh)) = [].
Proof.
  exact (issuance_atomic (rand.Unavailable sample.failure) sample.clock sample.fresh
           sample.failure eq_refl).
Defined.

(** C10. The form field is checked before the cookie: a request in which
    both the form field [csrf_token] and the cookie [csrf_token] are absent
    is rejected with "csrf token not provided", the missing-field error, and
    not with the missing-cookie error. *)
Theorem field_checked_first (r : http.Request) :
  http.Form r !! "csrf_token" = None ->
  http.Cookie_ r "csrf_token" = inr http.ErrNoCookie ->
  utils.ValidateCSRFToken r = Some (errors_New "csrf token not provided")
  /\ utils.ValidateCSRFToken r <> Some utils.CSRFMissingCookie.
Proof.
  intros Hform _.
  assert (H : utils.ValidateCSRFToken r = Some utils.CSRFMissingField).
  { apply Validate_missing_field. unfold http.FormValue.
    rewrite Hform. reflexivity. }
  rewrite H. split; [reflexivity | discriminate].
Qed.

Lemma field_checked_first_witness :
  utils.ValidateCSRFToken (sample.request None None)
  = Some (errors_New "csrf token not provided")
  /\ utils.ValidateCSRFToken (sample.request None None) <> Some utils.CSRFMissingCookie.
Proof.
  apply (field_checked_first (sample.request None None)); vm_compute; reflexivity.
Defined.

(** ** The route tables *)

(** The check of one table entry: a route that applies [AdminOnly] is
    [Authenticate (AdminOnly (HandlerFunc f))]. *)
Lemma route_check (table : route.Table) :
  table = main.routes \/ table = main_earlier.routes ->
  forallb (fun ph =>
             route.roleAfterAuth false (snd ph)
             && implb (route.usesAdminOnly (snd ph))
                  match snd ph with
                  | route.Authenticate (route.AdminOnly (route.HandlerFunc _)) => true
                  | _ => false
                  end) table = true.
Proof. intros [-> | ->]; vm_compute; reflexivity. Qed.

(** C3. In both route tables every route that applies the role gate
    [AdminOnly] has it wrapped inside [Authenticate]: the registered handler
    is [Authenticate(dbConn, AdminOnly(handler))], so the role check only
    runs behind the authentication step. *)
Theorem role_gate_inside_authentication (table : route.Table) (pattern : string)
    (h : route.Handler) :
  table = main.routes \/ table = main_earlier.routes ->
  In (pattern, h) table ->
  route.usesAdminOnly h = true ->
  route.roleAfterAuth false h = true
  /\ exists f : string,
       h = route.Authenticate (route.AdminOnly (route.HandlerFunc f)).
Proof.
  intros Htable Hin Huses.
  pose proof (route_check table Htable) as Hall.
  rewrite forallb_forall in Hall. specialize (Hall _ Hin). cbn [snd] in Hall.
  apply andb_true_iff in Hall as [Hgate Hshape]. split; [exact Hgate |].
  rewrite Huses in Hshape. cbn [implb] in Hshape.
  destruct h as [| h1 | |]; try discriminate.
  destruct h1 as [| | h2 |]; try discriminate.
  destruct h2 as [f | | |]; try discriminate.
  exists f. reflexivity.
Qed.

Lemma role_gate_inside_authentication_witness :
  route.roleAfterAuth false
    (route.Authenticate (route.AdminOnly (route.HandlerFunc "adminHandler.ListUsers")))
  = true
  /\ exists f : string,
       route.Authenticate (route.AdminOnly (route.HandlerFunc "adminHandler.ListUsers"))
       = route.Authenticate (route.AdminOnly (route.HandlerFunc f)).
Proof.
  apply (role_gate_inside_authentication main.routes "/admin/users").
  - left. reflexivity.
  - vm_compute. tauto.
  - reflexivity.
Defined.

(** Both tables gate eleven of their routes by role. *)
Example role_gated_routes :
  List.length (List.filter (fun ph => route.usesAdminOnly (snd ph)) main.routes) = 11%nat
  /\ List.length (List.filter (fun ph => route.usesAdminOnly (snd ph)) main_earlier.routes)
     = 11%nat
  /\ List.length main.routes = 35%nat
  /\ List.length main_earlier.routes = 22%nat.
Proof. repeat split; reflexivity. Qed.

(** ** The authentication pipeline *)

Section PipelineProperties.

Variable sessionCookie : string.
Variable Lookup : string -> option Identity.

Let Authenticate := middleware.Authenticate sessionCookie Lookup.

Lemma Authenticate_no_cookie (next : middleware.Handler) (r : http.Request)
    (x : middleware.Exchange) (e : error) :
  http.Cookie_ r sessionCookie = inr e ->
  Authenticate next r x = middleware.Done (middleware.respond 401 x).
Proof.
  intros Hc. unfold Authenticate, middleware.Authenticate. rewrite Hc. reflexivity.
Qed.

Lemma Authenticate_no_session (next : middleware.Handler) (r : http.Request)
    (x : middleware.Exchange) (c : http.Cookie) :
  http.Cookie_ r sessionCookie = inl c ->
  Lookup (http.Value c) = None ->
  Authenticate next r x = middleware.Done (middleware.respond 401 x).
Proof.
  intros Hc Hl. unfold Authenticate, middleware.Authenticate. rewrite Hc, Hl.
  reflexivity.
Qed.

Lemma Authenticate_session (next : middleware.Handler) (r : http.Request)
    (x : middleware.Exchange) (c : http.Cookie) (id : Identity) :
  http.Cookie_ r sessionCookie = inl c ->
  Lookup (http.Value c) = Some id ->
  Authenticate next r x = next (middleware.attach id r) x.
Proof.
  intros Hc Hl. unfold Authenticate, middleware.Authenticate. rewrite Hc, Hl.
  reflexivity.
Qed.

(** [Authenticate] answers 401 or hands on to the wrapped handler. *)
Lemma Authenticate_cases (next : middleware.Handler) (r : http.Request)
    (x : middleware.Exchange) :
  Authenticate next r x = middleware.Done (middleware.respond 401 x)
  \/ exists id : Identity, Authenticate next r x = next (middleware.attach id r) x.
Proof.
  unfold Authenticate, middleware.Authenticate.
  destruct (http.Cookie_ r sessionCookie) as [c | e]; [| left; reflexivity].
  destruct (Lookup (http.Value c)) as [id |]; [right; eauto | left; reflexivity].
Qed.

Lemma RequireRole_cases (permitted : list Role) (next : middleware.Handler)
    (r : http.Request) (x : middleware.Exchange) (id : Identity) :
  http.identity r = Some id ->
  middleware.RequireRole permitted next r x
  = if bool_decide (role id ∈ permitted) then next r x
    else middleware.Done (middleware.respond 403 x).
Proof. intros Hid. unfold middleware.RequireRole. rewrite Hid. reflexivity. Qed.

(** A route expression whose role gates all sit behind an authentication
    never stops on [IdentityNotPresent]. *)
Lemma gated_route_never_faults
    (behaviour : string -> http.Request -> http.ResponseWriter -> http.ResponseWriter)
    (decorate : http.ResponseWriter -> http.ResponseWriter)
    (h : route.Handler) :
  forall (r : http.Request) (x : middleware.Exchange) (e : middleware.InternalError),
    route.roleAfterAuth (match http.identity r with Some _ => true | None => false end) h
    = true ->
    middleware.handler sessionCookie Lookup behaviour decorate h r x
    <> middleware.Fault e.
Proof.
  induction h as [f | next IH | next IH | next IH]; intros r x e Hgate;
    cbn [middleware.handler route.roleAfterAuth] in *.
  - discriminate.
  - unfold middleware.Authenticate.
    destruct (http.Cookie_ r sessionCookie) as [c | e']; [| discriminate].
    destruct (Lookup (http.Value c)) as [id |]; [| discriminate].
    apply IH. exact Hgate.
  - apply andb_true_iff in Hgate as [Hauth Hnext].
    unfold middleware.AdminOnly, middleware.RequireRole.
    destruct (http.identity r) as [id |] eqn:Hid; [| discriminate].
    destruct (bool_decide (role id ∈ [RoleAdmin])); [| discriminate].
    apply IH. rewrite Hid. exact Hnext.
  - unfold middleware.CORS. apply IH. exact Hgate.
Qed.

End PipelineProperties.

Lemma roleAfterAuth_mono (h : route.Handler) :
  route.roleAfterAuth false h = true -> route.roleAfterAuth true h = true.
Proof.
  induction h as [f | next IH | next IH | next IH]; cbn; auto.
  intros H. discriminate.
Qed.

(** No route of either table can reach the role check without an identity,
    whatever the request, the session store and the domain handlers. *)
Lemma routes_never_fault (table : route.Table) (pattern : string) (h : route.Handler)
    (sessionCookie : string) (Lookup : string -> option Identity)
    (behaviour : string -> http.Request -> http.ResponseWriter -> http.ResponseWriter)
    (decorate : http.ResponseWriter -> http.ResponseWriter)
    (r : http.Request) (x : middleware.Exchange) (e : middleware.InternalError) :
  table = main.routes \/ table = main_earlier.routes ->
  In (pattern, h) table ->
  middleware.handler sessionCookie Lookup behaviour decorate h r x <> middleware.Fault e.
Proof.
  intros Htable Hin. apply gated_route_never_faults.
  pose proof (route_check table Htable) as Hall.
  rewrite forallb_forall in Hall. specialize (Hall _ Hin). cbn [snd] in Hall.
  apply andb_true_iff in Hall as [Hgate _].
  destruct (http.identity r); [apply roleAfterAuth_mono |]; exact Hgate.
Qed.

(** ** The claims on the middleware *)

(** C6. A request without the session cookie, and a request whose session
    cookie the store does not resolve (not found or expired), is answered
    with HTTP 401 by the Authentication Middleware and the wrapped handler
    is not invoked: the invocation log is the one from before the call,
    whatever the wrapped handler is. *)
Theorem unauthenticated_rejected (sessionCookie : string)
    (Lookup : string -> option Identity) (next : middleware.Handler)
    (r : http.Request) (x : middleware.Exchange) :
  (match http.Cookie_ r sessionCookie with
   | inr _ => True
   | inl c => Lookup (http.Value c) = None
   end) ->
  exists x' : middleware.Exchange,
    middleware.Authenticate sessionCookie Lookup next r x = middleware.Done x'
    /\ http.status (middleware.writer x') = Some 401
    /\ middleware.invoked x' = middleware.invoked x
    /\ x' = middleware.respond 401 x.
Proof.
  intros Hrej. exists (middleware.respond 401 x).
  split; [| repeat split].
  destruct (http.Cookie_ r sessionCookie) as [c | e] eqn:Hc.
  - exact (Authenticate_no_session sessionCookie Lookup next r x c Hc Hrej).
  - exact (Authenticate_no_cookie sessionCookie Lookup next r x e Hc).
Qed.

Lemma unauthenticated_rejected_witness :
  (exists x' : middleware.Exchange,
     middleware.Authenticate sample.sessionCookie sample.Lookup
       (middleware.HandlerFunc sample.behaviour "adminHandler.Dashboard")
       (sample.visit None) sample.start = middleware.Done x'
     /\ http.status (middleware.writer x') = Some 401
     /\ middleware.invoked x' = []
     /\ x' = middleware.respond 401 sample.start)
  /\ (exists x' : middleware.Exchange,
     middleware.Authenticate sample.sessionCookie sample.Lookup
       (middleware.HandlerFunc sample.behaviour "adminHandler.Dashboard")
       (sample.visit (Some "s-expired")) sample.start = middleware.Done x'
     /\ http.status (middleware.writer x') = Some 401
     /\ middleware.invoked x' = []
     /\ x' = middleware.respond 401 sample.start).
Proof.
  split.
  - apply (unauthenticated_rejected sample.sessionCookie sample.Lookup
             (middleware.HandlerFunc sample.behaviour "adminHandler.Dashboard")
             (sample.visit None) sample.start).
    vm_compute. exact I.
  - apply (unauthenticated_rejected sample.sessionCookie sample.Lookup
             (middleware.HandlerFunc sample.behaviour "adminHandler.Dashboard")
             (sample.visit (Some "s-expired")) sample.start).
    vm_compute. reflexivity.
Defined.

(** C7. For a request whose session cookie the store resolves, the
    Authentication Middleware runs the wrapped handler, once, on the request
    with the resolved identity (user identifier and role) attached to its
    context: the outcome is that single call, and a logged domain handler
    shows exactly one new invocation, made with the identity in place. *)
Theorem authenticated_invokes_once (sessionCookie : string)
    (Lookup : string -> option Identity) (next : middleware.Handler)
    (r : http.Request) (x : middleware.Exchange) (c : http.Cookie) (id : Identity) :
  http.Cookie_ r sessionCookie = inl c ->
  Lookup (http.Value c) = Some id ->
  middleware.Authenticate sessionCookie Lookup next r x
  = next (middleware.attach id r) x
  /\ http.identity (middleware.attach id r) = Some id
  /\ forall (behaviour : string -> http.Request -> http.ResponseWriter
                         -> http.ResponseWriter) (f : string),
       exists x' : middleware.Exchange,
         middleware.Authenticate sessionCookie Lookup
           (middleware.HandlerFunc behaviour f) r x = middleware.Done x'
         /\ middleware.invoked x'
            = (middleware.invoked x ++ [(f, middleware.attach id r)])%list
         /\ middleware.writer x'
            = behaviour f (middleware.attach id r) (middleware.writer x).
Proof.
  intros Hc Hl. split; [| split].
  - exact (Authenticate_session sessionCookie Lookup next r x c id Hc Hl).
  - reflexivity.
  - intros behaviour f.
    rewrite (Authenticate_session sessionCookie Lookup _ r x c id Hc Hl).
    unfold middleware.HandlerFunc. eexists. split; [reflexivity |].
    split; reflexivity.
Qed.

Lemma authenticated_invokes_once_witness :
  middleware.Authenticate sample.sessionCookie sample.Lookup
    (middleware.HandlerFunc sample.behaviour "cartHandler.GetCart")
    (sample.visit (Some "s-buyer")) sample.start
  = middleware.Done
      {| middleware.writer := {| http.SetCookies := []; http.status := Some 200 |};
         middleware.invoked :=
           [("cartHandler.GetCart",
             middleware.attach sample.buyer (sample.visit (Some "s-buyer")))] |}
  /\ http.identity (middleware.attach sample.buyer (sample.visit (Some "s-buyer")))
     = Some sample.buyer.
Proof.
  destruct (authenticated_invokes_once sample.sessionCookie sample.Lookup
              (middleware.HandlerFunc sample.behaviour "cartHandler.GetCart")
              (sample.visit (Some "s-buyer")) sample.start
              (http.readCookie (sample.sessionCookie, "s-buyer")) sample.buyer
              eq_refl eq_refl) as (Hcall & Hid & _).
  split; [rewrite Hcall; reflexivity | exact Hid].
Defined.

(** C8. When the identity attached to a request has a role outside the
    route's permitted set, the Role Authorization Middleware answers HTTP
    403 and ends the chain without invoking the wrapped handler, whatever
    the session cookies of the request say; when the role is in the set it
    hands the request to the wrapped handler and adds nothing of its own.
    For authentication followed by the role check the outcome is fixed in
    every case: 401 without a resolved session, 403 for a resolved session
    with a role outside the set, and for a resolved session with a permitted
    role exactly what the wrapped handler does on the request with the
    identity attached. So the core answers 401 or 403 of its own accord and
    in every other case the response is the wrapped handler's. *)
Theorem role_mismatch_forbidden (permitted : list Role) (next : middleware.Handler) :
  (forall (r : http.Request) (x : middleware.Exchange) (id : Identity),
     http.identity r = Some id ->
     role id ∉ permitted ->
     exists x' : middleware.Exchange,
       middleware.RequireRole permitted next r x = middleware.Done x'
       /\ http.status (middleware.writer x') = Some 403
       /\ middleware.invoked x' = middleware.invoked x
       /\ x' = middleware.respond 403 x)
  /\ (forall (r : http.Request) (x : middleware.Exchange) (id : Identity),
       http.identity r = Some id ->
       role id ∈ permitted ->
       middleware.RequireRole permitted next r x = next r x)
  /\ (forall (sessionCookie : string) (Lookup : string -> option Identity)
             (r : http.Request) (x : middleware.Exchange),
       let outcome :=
         middleware.Authenticate sessionCookie Lookup
           (middleware.RequireRole permitted next) r x in
       (forall e : error,
          http.Cookie_ r sessionCookie = inr e ->
          outcome = middleware.Done (middleware.respond 401 x))
       /\ (forall c : http.Cookie,
            http.Cookie_ r sessionCookie = inl c ->
            Lookup (http.Value c) = None ->
            outcome = middleware.Done (middleware.respond 401 x))
       /\ (forall (c : http.Cookie) (id : Identity),
            http.Cookie_ r sessionCookie = inl c ->
            Lookup (http.Value c) = Some id ->
            role id ∉ permitted ->
            outcome = middleware.Done (middleware.respond 403 x))
       /\ (forall (c : http.Cookie) (id : Identity),
            http.Cookie_ r sessionCookie = inl c ->
            Lookup (http.Value c) = Some id ->
            role id ∈ permitted ->
            outcome = next (middleware.attach id r) x)
       /\ (outcome = middleware.Done (middleware.respond 401 x)
           \/ outcome = middleware.Done (middleware.respond 403 x)
           \/ exists id : Identity, outcome = next (middleware.attach id r) x)).
Proof.
  split; [| split].
  - intros r x id Hid Hrole.
    exists (middleware.respond 403 x). split; [| repeat split].
    rewrite (RequireRole_cases permitted next r x id Hid).
    rewrite bool_decide_eq_false_2 by exact Hrole. reflexivity.
  - intros r x id Hid Hrole.
    rewrite (RequireRole_cases permitted next r x id Hid).
    rewrite bool_decide_eq_true_2 by exact Hrole. reflexivity.
  - intros sessionCookie Lookup r x outcome. subst outcome.
    split; [| split; [| split; [| split]]].
    + intros e Hc. exact (Authenticate_no_cookie sessionCookie Lookup _ r x e Hc).
    + intros c Hc Hl. exact (Authenticate_no_session sessionCookie Lookup _ r x c Hc Hl).
    + intros c id Hc Hl Hrole.
      rewrite (Authenticate_session sessionCookie Lookup _ r x c id Hc Hl).
      rewrite (RequireRole_cases permitted next (middleware.attach id r) x id eq_refl).
      rewrite bool_decide_eq_false_2 by exact Hrole. reflexivity.
    + intros c id Hc Hl Hrole.
      rewrite (Authenticate_session sessionCookie Lookup _ r x c id Hc Hl).
      rewrite (RequireRole_cases permitted next (middleware.attach id r) x id eq_refl).
      rewrite bool_decide_eq_true_2 by exact Hrole. reflexivity.
    + destruct (Authenticate_cases sessionCookie Lookup
                  (middleware.RequireRole permitted next) r x) as [H401 | [id Hnext]].
      * left. exact H401.
      * right. rewrite Hnext.
        rewrite (RequireRole_cases permitted next (middleware.attach id r) x id eq_refl).
        destruct (bool_decide (role id ∈ permitted)); [right; eauto | left; reflexivity].
Qed.

Lemma role_mismatch_forbidden_witness :
  middleware.RequireRole [RoleAdmin]
    (middleware.HandlerFunc sample.behaviour "adminHandler.ListUsers")
    (middleware.attach sample.buyer (sample.visit None)) sample.start
  = middleware.Done (middleware.respond 403 sample.start)
  /\ middleware.RequireRole [RoleAdmin]
       (middleware.HandlerFunc sample.behaviour "adminHandler.ListUsers")
       (middleware.attach sample.admin (sample.visit None)) sample.start
     = middleware.HandlerFunc sample.behaviour "adminHandler.ListUsers"
         (middleware.attach sample.admin (sample.visit None)) sample.start
  /\ middleware.Authenticate sample.sessionCookie sample.Lookup
       (middleware.RequireRole [RoleAdmin]
          (middleware.HandlerFunc sample.behaviour "adminHandler.ListUsers"))
       (sample.visit None) sample.start
     = middleware.Done (middleware.respond 401 sample.start)
  /\ middleware.Authenticate sample.sessionCookie sample.Lookup
       (middleware.RequireRole [RoleAdmin]
          (middleware.HandlerFunc sample.behaviour "adminHandler.ListUsers"))
       (sample.visit (Some "s-expired")) sample.start
     = middleware.Done (middleware.respond 401 sample.start)
  /\ middleware.Authenticate sample.sessionCookie sample.Lookup
       (middleware.RequireRole [RoleAdmin]
          (middleware.HandlerFunc sample.behaviour "adminHandler.ListUsers"))
       (sample.visit (Some "s-buyer")) sample.start
     = middleware.Done (middleware.respond 403 sample.start)
  /\ middleware.Authenticate sample.sessionCookie sample.Lookup
       (middleware.RequireRole [RoleAdmin]
          (middleware.HandlerFunc sample.behaviour "adminHandler.ListUsers"))
       (sample.visit (Some "s-admin")) sample.start
     = middleware.Done
         {| middleware.writer := {| http.SetCookies := []; http.status := Some 200 |};
            middleware.invoked :=
              [("adminHandler.ListUsers",
                middleware.attach sample.admin (sample.visit (Some "s-admin")))] |}.
Proof.
  assert (Hbuyer : role sample.buyer ∉ [RoleAdmin]) by compute_done.
  assert (Hadmin : role sample.admin ∈ [RoleAdmin]) by compute_done.
  destruct (role_mismatch_forbidden [RoleAdmin]
              (middleware.HandlerFunc sample.behaviour "adminHandler.ListUsers"))
    as (Hdeny & Hallow & Hchain).
  split; [| split; [| split; [| split; [| split]]]].
  - destruct (Hdeny (middleware.attach sample.buyer (sample.visit None)) sample.start
                sample.buyer eq_refl Hbuyer) as (x' & Hrun & _ & _ & ->).
    exact Hrun.
  - exact (Hallow (middleware.attach sample.admin (sample.visit None)) sample.start
             sample.admin eq_refl Hadmin).
  - exact (proj1 (Hchain sample.sessionCookie sample.Lookup (sample.visit None)
                    sample.start) http.ErrNoCookie eq_refl).
  - exact (proj1 (proj2 (Hchain sample.sessionCookie sample.Lookup
                           (sample.visit (Some "s-expired")) sample.start))
             (http.readCookie (sample.sessionCookie, "s-expired")) eq_refl eq_refl).
  - exact (proj1 (proj2 (proj2 (Hchain sample.sessionCookie sample.Lookup
                                  (sample.visit (Some "s-buyer")) sample.start)))
             (http.readCookie (sample.sessionCookie, "s-buyer")) sample.buyer
             eq_refl eq_refl Hbuyer).
  - rewrite (proj1 (proj2 (proj2 (proj2 (Hchain sample.sessionCookie sample.Lookup
                                           (sample.visit (Some "s-admin")) sample.start))))
               (http.readCookie (sample.sessionCookie, "s-admin")) sample.admin
               eq_refl eq_refl Hadmin).
    reflexivity.
Defined.

(** The three outcomes of an admin route on sample requests: no session,
    a buyer's session, an admin's session. *)
Example admin_route_outcomes :
  let h := route.Authenticate (route.AdminOnly (route.HandlerFunc "adminHandler.ListUsers")) in
  let run sid :=
    middleware.handler sample.sessionCookie sample.Lookup sample.behaviour
      (fun w => w) h (sample.visit sid) sample.start in
  run None = middleware.Done (middleware.respond 401 sample.start)
  /\ run (Some "s-buyer") = middleware.Done (middleware.respond 403 sample.start)
  /\ run (Some "s-admin")
     = middleware.Done
         {| middleware.writer := {| http.SetCookies := []; http.status := Some 200 |};
            middleware.invoked :=
              [("adminHandler.ListUsers",
                middleware.attach sample.admin (sample.visit (Some "s-admin")))] |}.
Proof. repeat split; vm_compute; reflexivity. Qed.

(** * Further properties of the code *)

(** ** Tokens *)

Lemma sextet_in_alphabet (val shift : Z) :
  In (base64.sextet val shift) (list_ascii_of_string base64.encodeStd).
Proof.
  unfold base64.sextet, base64.encode. apply nth_In.
  pose proof (sextet_range (Z.shiftr val shift)). cbn. lia.
Qed.

(** An input of 3k+2 octets is encoded as letters of the alphabet followed
    by a single padding character. *)
Lemma Encode_one_pad (src : list byte) :
  (List.length src mod 3 = 2)%nat ->
  exists body : list ascii,
    base64.Encode src = (body ++ [base64.StdPadding])%list
    /\ Forall (fun c => In c (list_ascii_of_string base64.encodeStd)) body.
Proof.
  induction src as [| b0 | b0 b1 | b0 b1 b2 rest IH] using list_ind3; intros Hlen.
  - discriminate.
  - discriminate.
  - cbn [base64.Encode]. cbv zeta.
    eexists [_; _; _]. split; [reflexivity |].
    repeat (constructor; [apply sextet_in_alphabet |]). constructor.
  - assert (Hrest : (List.length rest mod 3 = 2)%nat).
    { cbn [List.length] in Hlen.
      replace (S (S (S (List.length rest)))) with (List.length rest + 1 * 3)%nat in Hlen
        by lia.
      rewrite Nat.Div0.mod_add in Hlen. exact Hlen. }
    destruct (IH Hrest) as (body & Hbody & Hall).
    cbn [base64.Encode]. cbv zeta. rewrite Hbody.
    eexists (_ :: _ :: _ :: _ :: body). split; [reflexivity |].
    repeat (constructor; [apply sextet_in_alphabet |]). exact Hall.
Qed.

(** X1. Every token [SetCSRFToken] returns has the same shape: 44
    characters, of which the first 43 are letters of the base64 alphabet
    and the last is the padding character. *)
Theorem token_shape (rd : rand.Reader) (clock : N) (w w' : http.ResponseWriter)
    (token : string) :
  utils.SetCSRFToken rd clock w = (w', (token, None)) ->
  String.length token = 44%nat
  /\ exists body : list ascii,
       token = string_of_list_ascii (body ++ ["="%char])
       /\ List.length body = 43%nat
       /\ Forall (fun c => In c (list_ascii_of_string base64.encodeStd)) body.
Proof.
  intros Hset. apply SetCSRFToken_success in Hset as (stream & _ & ->).
  assert (Hlen : String.length (base64.EncodeToString (List.map stream (seq 0 32)))
                 = 44%nat).
  { apply Nat2Z.inj. rewrite EncodeToString_length, length_map, length_seq.
    reflexivity. }
  split; [exact Hlen |].
  destruct (Encode_one_pad (List.map stream (seq 0 32))) as (body & Hbody & Hall).
  { rewrite length_map, length_seq. reflexivity. }
  exists body. unfold base64.EncodeToString in *. rewrite Hbody in *.
  split; [reflexivity |]. split; [| exact Hall].
  rewrite string_length_of_list, length_app in Hlen. cbn in Hlen. lia.
Qed.

Lemma token_shape_witness :
  String.length sample.token = 44%nat
  /\ exists body : list ascii,
       sample.token = string_of_list_ascii (body ++ ["="%char])
       /\ List.length body = 43%nat
       /\ Forall (fun c => In c (list_ascii_of_string base64.encodeStd)) body.
Proof.
  exact (token_shape (rand.Entropy sample.stream) sample.clock sample.fresh _ _ eq_refl).
Defined.

(** X2. Two issuances return the same token exactly when the entropy
    source delivered the same 32 octets to both; neither the clock nor the
    response has a part in it. *)
Theorem token_unique (s1 s2 : nat -> byte) (clock1 clock2 : N)
    (w1 w2 : http.ResponseWriter) :
  fst (snd (utils.SetCSRFToken (rand.Entropy s1) clock1 w1))
  = fst (snd (utils.SetCSRFToken (rand.Entropy s2) clock2 w2))
  <-> forall i : nat, (i < 32)%nat -> s1 i = s2 i.
Proof.
  rewrite !SetCSRFToken_Entropy. cbn [fst snd]. split.
  - intros Heq i Hi. apply EncodeToString_inj in Heq.
    apply (proj1 map_ext_in_iff Heq). apply in_seq. lia.
  - intros Hsame. f_equal. apply map_ext_in. intros i Hi.
    apply in_seq in Hi. apply Hsame. lia.
Qed.

Lemma token_unique_witness :
  fst (snd (utils.SetCSRFToken (rand.Entropy sample.stream) 0%N sample.fresh))
  = fst (snd (utils.SetCSRFToken (rand.Entropy sample.stream) sample.clock
                {| http.SetCookies := []; http.status := Some 200 |}))
  /\ fst (snd (utils.SetCSRFToken (rand.Entropy (sample2.constant x00)) 0%N sample.fresh))
     <> fst (snd (utils.SetCSRFToken (rand.Entropy (sample2.constant x01))
                    0%N sample.fresh)).
Proof.
  split.
  - apply (proj2 (token_unique sample.stream sample.stream 0%N sample.clock
                    sample.fresh {| http.SetCookies := []; http.status := Some 200 |})).
    intros i _. reflexivity.
  - intros Heq.
    pose proof (proj1 (token_unique (sample2.constant x00) (sample2.constant x01)
                         0%N 0%N sample.fresh sample.fresh) Heq 0%nat) as H.
    assert (H0 : (0 < 32)%nat) by lia. specialize (H H0). discriminate H.
Defined.

(** ** What validation looks at *)

Lemma find_first {A} (f : A -> bool) (l : list A) (x : A) :
  List.find f l = Some x
  <-> exists pre post : list A,
        l = (pre ++ x :: post)%list /\ f x = true
        /\ forall y : A, In y pre -> f y = false.
Proof.
  induction l as [| a l IH]; cbn.
  - split; [discriminate |]. intros (pre & post & Hl & _). destruct pre; discriminate.
  - destruct (f a) eqn:Hfa.
    + split.
      * intros H. inversion H; subst. exists [], l. repeat split; auto.
        intros y [].
      * intros (pre & post & Hl & Hfx & Hpre). destruct pre as [| p pre].
        -- cbn in Hl. congruence.
        -- cbn in Hl. inversion Hl; subst. rewrite (Hpre p) in Hfa by (left; reflexivity).
           discriminate.
    + rewrite IH. split.
      * intros (pre & post & Hl & Hfx & Hpre). exists (a :: pre), post.
        subst l. repeat split; auto. intros y [<- | Hy]; auto.
      * intros (pre & post & Hl & Hfx & Hpre). destruct pre as [| p pre].
        -- cbn in Hl. inversion Hl; subst. congruence.
        -- cbn in Hl. inversion Hl; subst. exists pre, post. repeat split; auto.
           intros y Hy. apply Hpre. right. exact Hy.
Qed.

(** [r.Cookie] in terms of the cookie header: it returns the value that
    stands first under the name. *)
Lemma Cookie_first (r : http.Request) (name v : string) (pre post : list (string * string)) :
  name <> EmptyString ->
  http.Cookies r = (pre ++ (name, v) :: post)%list ->
  (forall n x, In (n, x) pre -> n <> name) ->
  http.Cookie_ r name = inl (http.readCookie (name, v)).
Proof.
  intros Hname Hcookies Hpre. unfold http.Cookie_.
  rewrite (String_eqb_false _ _ Hname).
  assert (Hfind : List.find (fun nv => String.eqb (fst nv) name) (http.Cookies r)
                  = Some (name, v)).
  { apply find_first. exists pre, post. split; [exact Hcookies |].
    split; [cbn; apply String.eqb_refl |].
    intros [n x] Hin. cbn. apply String.eqb_neq. exact (Hpre n x Hin). }
  rewrite Hfind. reflexivity.
Qed.

Lemma Cookie_first_inv (r : http.Request) (name : string) (c : http.Cookie) :
  http.Cookie_ r name = inl c ->
  exists pre post : list (string * string),
    http.Cookies r = (pre ++ (name, http.Value c) :: post)%list
    /\ forall n x, In (n, x) pre -> n <> name.
Proof.
  unfold http.Cookie_. destruct (String.eqb name EmptyString); [discriminate |].
  destruct (List.find _ (http.Cookies r)) as [[n v] |] eqn:Hfind; [| discriminate].
  intros H. inversion H; subst c. cbn [http.readCookie http.Value snd].
  apply find_first in Hfind as (pre & post & Hl & Hn & Hpre). cbn in Hn.
  apply String.eqb_eq in Hn. subst n. exists pre, post. split; [exact Hl |].
  intros n x Hin. specialize (Hpre _ Hin). cbn in Hpre.
  apply String.eqb_neq. exact Hpre.
Qed.

(** X3. [ValidateCSRFToken] returns no error exactly for the requests in
    which the first value of the form field [csrf_token] is not empty and
    is also the value of the first cookie named [csrf_token]. In particular
    an empty field never passes, not even against an empty cookie. *)
Theorem validate_accepts_iff (r : http.Request) :
  utils.ValidateCSRFToken r = None
  <-> exists (v : string) (more : list string) (pre post : list (string * string)),
        v <> EmptyString
        /\ http.Form r !! "csrf_token" = Some (v :: more)
        /\ http.Cookies r = (pre ++ ("csrf_token", v) :: post)%list
        /\ forall n x, In (n, x) pre -> n <> "csrf_token".
Proof.
  split.
  - unfold utils.ValidateCSRFToken.
    destruct (String.eqb (http.FormValue r "csrf_token") EmptyString) eqn:Hf;
      [discriminate |].
    destruct (http.Cookie_ r "csrf_token") as [c | e] eqn:Hc; [| discriminate].
    destruct (String.eqb (http.FormValue r "csrf_token") (http.Value c)) eqn:Hv;
      [| discriminate].
    intros _. apply String.eqb_neq in Hf. apply String.eqb_eq in Hv.
    apply Cookie_first_inv in Hc as (pre & post & Hl & Hpre).
    unfold http.FormValue in Hf, Hv.
    destruct (http.Form r !! "csrf_token") as [[| v more] |] eqn:Hform;
      try congruence.
    exists v, more, pre, post. rewrite <- Hv in Hl. auto.
  - intros (v & more & pre & post & Hv & Hform & Hl & Hpre).
    assert (Hf : http.FormValue r "csrf_token" = v)
      by (unfold http.FormValue; rewrite Hform; reflexivity).
    apply (Validate_match r (http.readCookie ("csrf_token", v))).
    + congruence.
    + apply (Cookie_first r "csrf_token" v pre post); [discriminate | exact Hl | exact Hpre].
    + rewrite Hf. reflexivity.
Qed.

Lemma validate_accepts_iff_witness :
  utils.ValidateCSRFToken
    {| http.Form := {[ "csrf_token" := ["abc"; "zzz"] ]};
       http.Cookies := [("theme", "dark"); ("csrf_token", "abc"); ("csrf_token", "zzz")];
       http.identity := None |} = None
  /\ utils.ValidateCSRFToken (sample.request (Some EmptyString) (Some EmptyString))
     <> None.
Proof.
  split.
  - apply (proj2 (validate_accepts_iff _)).
    exists "abc", ["zzz"], [("theme", "dark")], [("csrf_token", "zzz")].
    split; [discriminate |]. split; [vm_compute; reflexivity |].
    split; [reflexivity |].
    intros n x [Heq | []]. inversion Heq; subst. discriminate.
  - intros Hok.
    destruct (proj1 (validate_accepts_iff _) Hok)
      as (v & more & pre & post & Hv & Hform & _).
    vm_compute in Hform. congruence.
Defined.

(** X4. Of several cookies named [csrf_token] only the first one counts: a
    request whose form value differs from it is rejected with the mismatch
    error, also when a later cookie of that name carries the form value. *)
Theorem first_cookie_decides (r : http.Request) (v1 v2 : string)
    (pre post : list (string * string)) :
  http.Cookies r = (pre ++ ("csrf_token", v1) :: post)%list ->
  (forall n x, In (n, x) pre -> n <> "csrf_token") ->
  http.FormValue r "csrf_token" = v2 ->
  v2 <> EmptyString ->
  v2 <> v1 ->
  utils.ValidateCSRFToken r = Some utils.CSRFMismatch.
Proof.
  intros Hl Hpre Hf Hfull Hdiff.
  apply (Validate_mismatch r (http.readCookie ("csrf_token", v1))).
  - congruence.
  - apply (Cookie_first r "csrf_token" v1 pre post); [discriminate | exact Hl | exact Hpre].
  - cbn. congruence.
Qed.

Lemma first_cookie_decides_witness :
  utils.ValidateCSRFToken
    {| http.Form := {[ "csrf_token" := ["fresh"] ]};
       http.Cookies := [("csrf_token", "stale"); ("csrf_token", "fresh")];
       http.identity := None |} = Some utils.CSRFMismatch.
Proof.
  apply (first_cookie_decides _ "stale" "fresh" [] [("csrf_token", "fresh")]).
  - reflexivity.
  - intros n x [].
  - vm_compute. reflexivity.
  - discriminate.
  - discriminate.
Defined.

(** ** Issuing more than once, and the way back *)

(** X5. [SetCSRFToken] adds to the header and never replaces: after two
    successful calls on the same response there are two [csrf_token] lines,
    the first with the first token and the second with the second, behind
    everything that was there before. *)
Theorem issuing_twice (rd1 rd2 : rand.Reader) (clock1 clock2 : N)
    (w w1 w2 : http.ResponseWriter) (t1 t2 : string) :
  utils.SetCSRFToken rd1 clock1 w = (w1, (t1, None)) ->
  utils.SetCSRFToken rd2 clock2 w1 = (w2, (t2, None)) ->
  exists c1 c2 : http.Cookie,
    http.SetCookies w2 = (http.SetCookies w ++ [c1; c2])%list
    /\ http.Name c1 = "csrf_token" /\ http.Value c1 = t1
    /\ http.Name c2 = "csrf_token" /\ http.Value c2 = t2.
Proof.
  intros H1 H2.
  destruct rd1 as [s1 | e1]; [| rewrite SetCSRFToken_Unavailable in H1; discriminate].
  destruct rd2 as [s2 | e2]; [| rewrite SetCSRFToken_Unavailable in H2; discriminate].
  rewrite SetCSRFToken_Entropy in H1. inversion H1; subst w1 t1. clear H1.
  rewrite SetCSRFToken_Entropy in H2. inversion H2; subst w2 t2. clear H2.
  cbn [http.SetCookies]. rewrite <- app_assoc. cbn [app].
  eexists _, _. split; [reflexivity |]. cbn. repeat split; reflexivity.
Qed.

Lemma issuing_twice_witness :
  exists c1 c2 : http.Cookie,
    http.SetCookies
      (fst (utils.SetCSRFToken (rand.Entropy (sample2.constant xff)) sample.clock
              (fst (utils.SetCSRFToken (rand.Entropy sample.stream) sample.clock
                      sample.fresh))))
    = ([] ++ [c1; c2])%list
    /\ http.Name c1 = "csrf_token" /\ http.Value c1 = sample.token
    /\ http.Name c2 = "csrf_token"
    /\ http.Value c2 = "//////////////////////////////////////////8=".
Proof.
  exact (issuing_twice (rand.Entropy sample.stream) (rand.Entropy (sample2.constant xff))
           sample.clock sample.clock sample.fresh _ _ _ _ eq_refl eq_refl).
Defined.

(** X6. Issue, then validate: when the cookie that [SetCSRFToken] wrote
    comes back as the only [csrf_token] cookie of a request and the form
    field carries the returned token, [ValidateCSRFToken] accepts, whatever
    other cookies and form fields the request has. *)
Theorem issued_cookie_validates (rd : rand.Reader) (clock : N)
    (w w' : http.ResponseWriter) (token : string) (c : http.Cookie)
    (form : gmap string (list string)) (others : list (string * string))
    (id : option Identity) :
  utils.SetCSRFToken rd clock w = (w', (token, None)) ->
  last (http.SetCookies w') = Some c ->
  (forall n x, In (n, x) others -> n <> "csrf_token") ->
  utils.ValidateCSRFToken
    {| http.Form := <["csrf_token" := [token]]> form;
       http.Cookies := (others ++ [(http.Name c, http.Value c)])%list;
       http.identity := id |} = None.
Proof.
  intros Hset Hlast Hothers.
  destruct rd as [stream | e]; [| rewrite SetCSRFToken_Unavailable in Hset; discriminate].
  rewrite SetCSRFToken_Entropy in Hset. inversion Hset; subst w' token. clear Hset.
  cbn [http.SetCookies] in Hlast. rewrite last_snoc in Hlast.
  inversion Hlast; subst c. cbn [http.Name http.Value].
  apply (Validate_match _ (http.readCookie
           ("csrf_token", base64.EncodeToString (List.map stream (seq 0 32))))).
  - unfold http.FormValue. cbn [http.Form]. rewrite lookup_insert_eq.
    apply token_nonempty.
  - apply (Cookie_first _ "csrf_token" _ others []);
      [discriminate | reflexivity | exact Hothers].
  - unfold http.FormValue. cbn [http.Form]. rewrite lookup_insert_eq. reflexivity.
Qed.

Lemma issued_cookie_validates_witness :
  utils.ValidateCSRFToken
    {| http.Form := <["csrf_token" := [sample.token]]> {[ "name" := ["apples"] ]};
       http.Cookies := [("session_id", "s-buyer"); ("csrf_token", sample.token)];
       http.identity := None |} = None.
Proof.
  apply (issued_cookie_validates (rand.Entropy sample.stream) sample.clock sample.fresh
           (fst (utils.SetCSRFToken (rand.Entropy sample.stream) sample.clock sample.fresh))
           sample.token
           {| http.Name := "csrf_token"; http.Value := sample.token; http.Path := "/";
              http.Expires := Some 1700086400000000000; http.HttpOnly := true;
              http.Secure := true; http.SameSiteMode := http.SameSiteNoneMode |}
           {[ "name" := ["apples"] ]} [("session_id", "s-buyer")] None).
  - reflexivity.
  - vm_compute. reflexivity.
  - intros n x [Heq | []]. inversion Heq; subst. discriminate.
Defined.

(** ** The encoding of tokens *)

(** X7. The standard base64 encoding loses nothing and has a fixed rate:
    decoding the encoding of any octets gives them back, and n octets
    become 4 * ceil(n / 3) characters. *)
Theorem base64_round_trip (src : list byte) :
  base64.DecodeString (base64.EncodeToString src) = Some src
  /\ String.length (base64.EncodeToString src)
     = (4 * ((List.length src + 2) / 3))%nat.
Proof.
  split; [apply DecodeString_EncodeToString |].
  apply Nat2Z.inj. rewrite EncodeToString_length.
  rewrite Nat2Z.inj_mul, Nat2Z.inj_div, Nat2Z.inj_add. reflexivity.
Qed.

(** ** The route tables, continued *)

(** X8. In both route tables the middleware of a route comes in one order
    only, CORS outermost, then authentication, then the role check: a
    route is a bare handler, or is wrapped in [Authenticate], in
    [Authenticate] and [AdminOnly], in [CORS], or in [CORS] and
    [Authenticate]. No route repeats a middleware, none puts [CORS] inside
    [Authenticate], and no route behind [CORS] is restricted to admins. *)
Theorem middleware_order (table : route.Table) (pattern : string) (h : route.Handler) :
  table = main.routes \/ table = main_earlier.routes ->
  In (pattern, h) table ->
  In (chain.wrappers h)
     [ [];
       [chain.MAuthenticate];
       [chain.MAuthenticate; chain.MAdminOnly];
       [chain.MCORS];
       [chain.MCORS; chain.MAuthenticate] ].
Proof.
  intros Htable Hin.
  assert (Hall : forallb (fun ph =>
             bool_decide (In (chain.wrappers (snd ph))
               [ []; [chain.MAuthenticate]; [chain.MAuthenticate; chain.MAdminOnly];
                 [chain.MCORS]; [chain.MCORS; chain.MAuthenticate] ])) table = true)
    by (destruct Htable as [-> | ->]; vm_compute; reflexivity).
  rewrite forallb_forall in Hall. specialize (Hall _ Hin).
  apply bool_decide_eq_true in Hall. exact Hall.
Qed.

Lemma middleware_order_witness :
  In (chain.wrappers (route.CORS (route.Authenticate (route.HandlerFunc "cartHandler.Checkout"))))
     [ [];
       [chain.MAuthenticate];
       [chain.MAuthenticate; chain.MAdminOnly];
       [chain.MCORS];
       [chain.MCORS; chain.MAuthenticate] ].
Proof.
  apply (middleware_order main.routes "/checkout").
  - left. reflexivity.
  - vm_compute. tauto.
Defined.

(** X18. Which routes need a session: in both route tables a route is
    wrapped in [Authenticate] exactly when its handler function is not one
    of the pages for registering and logging in, the root page, the
    favicon's not-found handler or the product details page. Every other
    handler, the logouts, dashboards, cart and product management among
    them, is only reached through the authentication middleware. *)
Theorem authentication_coverage (table : route.Table) (pattern : string)
    (h : route.Handler) :
  table = main.routes \/ table = main_earlier.routes ->
  In (pattern, h) table ->
  (chain.MAuthenticate ∈ chain.wrappers h <-> chain.core h ∉ chain.public).
Proof.
  intros Htable Hin.
  assert (Hall : forallb (fun ph =>
             Bool.eqb (bool_decide (chain.MAuthenticate ∈ chain.wrappers (snd ph)))
                      (negb (bool_decide (chain.core (snd ph) ∈ chain.public))))
           table = true)
    by (destruct Htable as [-> | ->]; vm_compute; reflexivity).
  rewrite forallb_forall in Hall. specialize (Hall _ Hin). cbn [snd] in Hall.
  apply Bool.eqb_prop in Hall.
  split.
  - intros Hauth Hpub. rewrite (bool_decide_eq_true_2 _ Hauth) in Hall.
    rewrite (bool_decide_eq_true_2 _ Hpub) in Hall. discriminate.
  - intros Hpriv. rewrite (bool_decide_eq_false_2 _ Hpriv) in Hall.
    apply bool_decide_eq_true in Hall. exact Hall.
Qed.

Lemma authentication_coverage_witness :
  (chain.MAuthenticate
     ∈ chain.wrappers (route.CORS (route.Authenticate (route.HandlerFunc "cartHandler.AddToCart")))
   <-> chain.core (route.CORS (route.Authenticate (route.HandlerFunc "cartHandler.AddToCart")))
       ∉ chain.public)
  /\ (chain.MAuthenticate ∈ chain.wrappers (route.HandlerFunc "adminHandler.Root")
      <-> chain.core (route.HandlerFunc "adminHandler.Root") ∉ chain.public).
Proof.
  split.
  - apply (authentication_coverage main.routes "/cart/add");
      [left; reflexivity | vm_compute; tauto].
  - apply (authentication_coverage main.routes "/");
      [left; reflexivity | vm_compute; tauto].
Defined.

(** X19. Which routes carry the role check: in the later table [AdminOnly]
    is applied exactly to the routes below [/admin/dashboard/] and to
    [/admin/users] with the routes below it, in the earlier table to those
    below [/dashboard/] and to [/admin/users] with the routes below it. The
    dashboard page itself and the admin's logout fall outside the role
    check. *)
Theorem role_check_coverage (pattern : string) (h : route.Handler) :
  (In (pattern, h) main.routes ->
     (route.usesAdminOnly h = true
      <-> String.prefix "/admin/dashboard/" pattern = true
          \/ String.prefix "/admin/users" pattern = true))
  /\ (In (pattern, h) main_earlier.routes ->
     (route.usesAdminOnly h = true
      <-> String.prefix "/dashboard/" pattern = true
          \/ String.prefix "/admin/users" pattern = true)).
Proof.
  split; intros Hin.
  - assert (Hall : forallb (fun ph =>
               Bool.eqb (route.usesAdminOnly (snd ph))
                        (String.prefix "/admin/dashboard/" (fst ph)
                         || String.prefix "/admin/users" (fst ph)))
             main.routes = true) by (vm_compute; reflexivity).
    rewrite forallb_forall in Hall. specialize (Hall _ Hin). cbn [fst snd] in Hall.
    apply Bool.eqb_prop in Hall. rewrite Hall. apply orb_true_iff.
  - assert (Hall : forallb (fun ph =>
               Bool.eqb (route.usesAdminOnly (snd ph))
                        (String.prefix "/dashboard/" (fst ph)
                         || String.prefix "/admin/users" (fst ph)))
             main_earlier.routes = true) by (vm_compute; reflexivity).
    rewrite forallb_forall in Hall. specialize (Hall _ Hin). cbn [fst snd] in Hall.
    apply Bool.eqb_prop in Hall. rewrite Hall. apply orb_true_iff.
Qed.

Lemma role_check_coverage_witness :
  (route.usesAdminOnly (route.Authenticate (route.HandlerFunc "adminHandler.Dashboard"))
   = true
   <-> String.prefix "/admin/dashboard/" "/admin/dashboard" = true
       \/ String.prefix "/admin/users" "/admin/dashboard" = true)
  /\ (route.usesAdminOnly
        (route.Authenticate (route.AdminOnly (route.HandlerFunc "farmerHandler.RejectFarmer")))
      = true
      <-> String.prefix "/dashboard/" "/dashboard/reject-farmer" = true
          \/ String.prefix "/admin/users" "/dashboard/reject-farmer" = true).
Proof.
  split.
  - apply (proj1 (role_check_coverage "/admin/dashboard"
                    (route.Authenticate (route.HandlerFunc "adminHandler.Dashboard")))).
    vm_compute. tauto.
  - apply (proj2 (role_check_coverage "/dashboard/reject-farmer"
                    (route.Authenticate
                       (route.AdminOnly (route.HandlerFunc "farmerHandler.RejectFarmer"))))).
    vm_compute. tauto.
Defined.

(** X9. The later [main] kept every route of the earlier one: each handler
    function of the earlier table is registered in the later table inside
    the same middleware, under the same pattern or under that pattern moved
    below [/admin]. *)
Theorem routes_preserved (pattern : string) (h : route.Handler) :
  In (pattern, h) main_earlier.routes ->
  In (pattern, h) main.routes \/ In ("/admin" ++ pattern, h) main.routes.
Proof.
  intros Hin.
  assert (Hall : forallb (fun ph =>
             bool_decide (In ph main.routes)
             || bool_decide (In ("/admin" ++ fst ph, snd ph) main.routes))
           main_earlier.routes = true) by (vm_compute; reflexivity).
  rewrite forallb_forall in Hall. specialize (Hall _ Hin). cbn [fst snd] in Hall.
  apply orb_true_iff in Hall as [H | H]; apply bool_decide_eq_true in H; auto.
Qed.

Lemma routes_preserved_witness :
  In ("/dashboard/approve-farmer",
      route.Authenticate (route.AdminOnly (route.HandlerFunc "farmerHandler.ApproveFarmer")))
     main.routes
  \/ In ("/admin" ++ "/dashboard/approve-farmer",
         route.Authenticate (route.AdminOnly (route.HandlerFunc "farmerHandler.ApproveFarmer")))
        main.routes.
Proof.
  apply (routes_preserved "/dashboard/approve-farmer").
  vm_compute. tauto.
Defined.

(** Registration goes through exactly for tables whose patterns are not
    empty, not registered before and pairwise different; the map then holds
    the table on top of what it held. *)
Lemma HandleAll_spec (table : route.Table) :
  forall mux : servemux.ServeMux,
    NoDup (List.map fst table) ->
    (forall p, In p (List.map fst table) -> p <> EmptyString /\ mux !! p = None) ->
    exists mux' : servemux.ServeMux,
      servemux.HandleAll mux table = Some mux'
      /\ forall p h, mux' !! p = Some h
                     <-> In (p, h) table \/ mux !! p = Some h.
Proof.
  induction table as [| [p0 h0] rest IH]; intros mux Hnodup Hfresh.
  - exists mux. split; [reflexivity |]. intros p h. cbn. tauto.
  - cbn [List.map fst] in Hnodup, Hfresh. apply NoDup_cons in Hnodup as [Hnotin Hnodup].
    destruct (Hfresh p0 (or_introl eq_refl)) as [Hne Hnone].
    cbn [servemux.HandleAll]. unfold servemux.Handle.
    rewrite (String_eqb_false _ _ Hne), Hnone.
    destruct (IH (<[p0 := h0]> mux) Hnodup) as (mux' & Hrun & Hmux').
    { intros p Hp. split; [apply Hfresh; right; exact Hp |].
      rewrite lookup_insert_ne; [apply Hfresh; right; exact Hp |].
      intros ->. apply Hnotin. apply list_elem_of_In. exact Hp. }
    exists mux'. split; [exact Hrun |]. intros p h. rewrite Hmux'. split.
    + intros [Hin | Hins]; [left; right; exact Hin |].
      destruct (decide (p0 = p)) as [-> | Hneq].
      * rewrite lookup_insert_eq in Hins. inversion Hins; subst. left. left. reflexivity.
      * rewrite lookup_insert_ne in Hins by exact Hneq. right. exact Hins.
    + intros [[Heq | Hin] | Hold].
      * inversion Heq; subst. right. apply lookup_insert_eq.
      * left. exact Hin.
      * right. rewrite lookup_insert_ne; [exact Hold |]. intros ->. congruence.
Qed.

(** A pattern that is empty, or that was registered before, makes the
    registration panic. *)
Lemma HandleAll_panics (pre post : route.Table) (p : string) (h : route.Handler) :
  p = EmptyString \/ In p (List.map fst pre) ->
  servemux.HandleAll ∅ (pre ++ (p, h) :: post)%list = None.
Proof.
  intros Hbad.
  assert (Hgen : forall mux : servemux.ServeMux,
             p = EmptyString \/ In p (List.map fst pre) \/ is_Some (mux !! p) ->
             servemux.HandleAll mux (pre ++ (p, h) :: post)%list = None).
  { clear Hbad. induction pre as [| [q g] pre IH]; intros mux Hcase.
    - cbn [app servemux.HandleAll]. unfold servemux.Handle.
      destruct (String.eqb_spec p EmptyString) as [| Hne]; [reflexivity |].
      destruct Hcase as [Hp | [[] | [x Hx]]]; [congruence |]. rewrite Hx. reflexivity.
    - cbn [app servemux.HandleAll]. unfold servemux.Handle.
      destruct (String.eqb q EmptyString); [reflexivity |].
      destruct (mux !! q) eqn:Hq; [reflexivity |].
      apply IH. destruct Hcase as [Hp | [[Hq' | Hin] | Hsome]]; auto.
      + cbn in Hq'. subst q. right. right. rewrite lookup_insert_eq. eauto.
      + right. right. destruct (decide (q = p)) as [-> | Hneq].
        * rewrite lookup_insert_eq. eauto.
        * rewrite lookup_insert_ne by exact Hneq. exact Hsome. }
  apply Hgen. destruct Hbad; auto.
Qed.

(** X10. The registrations of [main] all go through: the patterns of the
    route table are non-empty and pairwise different, so no call of
    [http.Handle] panics, and afterwards the mux holds, for every pattern of
    the table, the handler of that route and nothing else. Registering any
    of the patterns once more would panic. *)
Theorem main_registers_all (table : route.Table) :
  table = main.routes \/ table = main_earlier.routes ->
  exists mux : servemux.ServeMux,
    servemux.HandleAll ∅ table = Some mux
    /\ (forall p h, mux !! p = Some h <-> In (p, h) table)
    /\ (forall p h, In p (List.map fst table) ->
          servemux.HandleAll ∅ (table ++ [(p, h)])%list = None).
Proof.
  intros Htable.
  assert (Hnodup : NoDup (List.map fst table))
    by (destruct Htable as [-> | ->]; compute_done).
  assert (Hfull : forallb (fun p => negb (String.eqb p EmptyString)) (List.map fst table)
                  = true)
    by (destruct Htable as [-> | ->]; vm_compute; reflexivity).
  destruct (HandleAll_spec table ∅ Hnodup) as (mux & Hrun & Hmux).
  { intros p Hp. split; [| apply lookup_empty].
    rewrite forallb_forall in Hfull. specialize (Hfull p Hp).
    apply negb_true_iff, String.eqb_neq in Hfull. exact Hfull. }
  exists mux. split; [exact Hrun |]. split.
  - intros p h. rewrite Hmux. rewrite lookup_empty. split; [intros [H | H] |]; auto.
    discriminate.
  - intros p h Hp. apply HandleAll_panics. right. exact Hp.
Qed.

Lemma main_registers_all_witness :
  exists mux : servemux.ServeMux,
    servemux.HandleAll ∅ main.routes = Some mux
    /\ (forall p h, mux !! p = Some h <-> In (p, h) main.routes)
    /\ (forall p h, In p (List.map fst main.routes) ->
          servemux.HandleAll ∅ (main.routes ++ [(p, h)])%list = None).
Proof.
  apply (main_registers_all main.routes). left. reflexivity.
Defined.

(** ** filepath.Base *)

Lemma chars_app (s t : string) :
  list_ascii_of_string (s ++ t) = (list_ascii_of_string s ++ list_ascii_of_string t)%list.
Proof.
  induction s as [| a s IH]; [reflexivity |].
  change (a :: list_ascii_of_string (s ++ t)
          = a :: (list_ascii_of_string s ++ list_ascii_of_string t)%list).
  now rewrite IH.
Qed.

Lemma chars_nonempty (s : string) : s <> EmptyString -> list_ascii_of_string s <> [].
Proof. destruct s; [congruence | discriminate]. Qed.

Lemma plain_rev (l : list ascii) : plain_chars l -> plain_chars (rev l).
Proof. intros H c Hc. apply H. apply in_rev. exact Hc. Qed.

Lemma stripSeparators_plain (l : list ascii) :
  plain_chars l -> filepath.stripSeparators l = l.
Proof.
  destruct l as [| c l]; [reflexivity |]. intros H. cbn.
  rewrite (H c (or_introl eq_refl)). reflexivity.
Qed.

Lemma stripSeparators_app (l r : list ascii) :
  l <> [] -> plain_chars l -> filepath.stripSeparators (l ++ r) = (l ++ r)%list.
Proof.
  destruct l as [| c l]; [congruence |]. intros _ H. cbn.
  rewrite (H c (or_introl eq_refl)). reflexivity.
Qed.

Lemma stripSeparators_slashes (l : list ascii) :
  filepath.stripSeparators ("/"%char :: l) = filepath.stripSeparators l.
Proof. reflexivity. Qed.

Lemma lastElement_app (l r : list ascii) :
  plain_chars l -> filepath.lastElement (l ++ "/"%char :: r) = l.
Proof.
  induction l as [| c l IH]; intros H; [reflexivity |]. cbn.
  rewrite (H c (or_introl eq_refl)). rewrite IH; [reflexivity |].
  intros d Hd. apply H. right. exact Hd.
Qed.

Lemma lastElement_all (l : list ascii) : plain_chars l -> filepath.lastElement l = l.
Proof.
  induction l as [| c l IH]; intros H; [reflexivity |]. cbn.
  rewrite (H c (or_introl eq_refl)). rewrite IH; [reflexivity |].
  intros d Hd. apply H. right. exact Hd.
Qed.

Lemma lastElement_plain (l : list ascii) : plain_chars (filepath.lastElement l).
Proof.
  induction l as [| c l IH]; cbn; [intros d [] |].
  destruct (filepath.isPathSeparator c) eqn:Hc; [intros d [] |].
  intros d [<- | Hd]; [exact Hc | apply IH; exact Hd].
Qed.

Lemma Base_of_rev (path : string) (element : list ascii) :
  path <> EmptyString -> element <> [] ->
  filepath.lastElement (filepath.stripSeparators (rev (list_ascii_of_string path)))
  = rev element ->
  filepath.Base path = string_of_list_ascii element.
Proof.
  intros Hpath Helem Hlast. unfold filepath.Base.
  rewrite (String_eqb_false _ _ Hpath). cbv zeta. rewrite Hlast, rev_involutive.
  destruct element; [congruence | reflexivity].
Qed.

Lemma rev_chars_nonempty (elem : string) :
  elem <> EmptyString -> rev (list_ascii_of_string elem) <> [].
Proof.
  intros Hne H. apply (chars_nonempty elem Hne).
  apply (f_equal (@rev ascii)) in H. rewrite rev_involutive in H. exact H.
Qed.

(** A name without a separator is its own base. *)
Lemma Base_plain (elem : string) :
  elem <> EmptyString -> plain_chars (list_ascii_of_string elem) ->
  filepath.Base elem = elem.
Proof.
  intros Hne Hplain. pose proof (plain_rev _ Hplain) as Hprev.
  rewrite <- (string_of_list_ascii_of_string elem) at 2.
  apply Base_of_rev; [exact Hne | apply chars_nonempty; exact Hne |].
  rewrite stripSeparators_plain by exact Hprev. apply lastElement_all. exact Hprev.
Qed.

(** The directory in front of a name is dropped. *)
Lemma Base_join (dir elem : string) :
  elem <> EmptyString -> plain_chars (list_ascii_of_string elem) ->
  filepath.Base (dir ++ "/" ++ elem) = elem.
Proof.
  intros Hne Hplain. pose proof (plain_rev _ Hplain) as Hprev.
  pose proof (rev_chars_nonempty elem Hne) as Hrev.
  rewrite <- (string_of_list_ascii_of_string elem) at 2.
  apply Base_of_rev; [destruct dir; discriminate | apply chars_nonempty; exact Hne |].
  rewrite !chars_app, !rev_app_distr. cbn [list_ascii_of_string rev app].
  rewrite <- app_assoc. cbn [app].
  rewrite stripSeparators_app by assumption.
  apply lastElement_app. exact Hprev.
Qed.

Lemma slash_rev (l : list ascii) : slash_chars l -> slash_chars (rev l).
Proof. intros H c Hc. apply H. apply in_rev. exact Hc. Qed.

(** The loop that strips trailing separators strips all of them, however
    many there are. *)
Lemma stripSeparators_all (l r : list ascii) :
  slash_chars l -> filepath.stripSeparators (l ++ r) = filepath.stripSeparators r.
Proof.
  induction l as [| c l IH]; intros H; [reflexivity |].
  cbn [app]. rewrite (H c (or_introl eq_refl)). rewrite stripSeparators_slashes.
  apply IH. intros d Hd. apply H. right. exact Hd.
Qed.

Lemma append_nonempty_l (s t : string) : s <> EmptyString -> s ++ t <> EmptyString.
Proof. destruct s; [congruence | discriminate]. Qed.

(** Trailing separators, any number of them, do not change the base. *)
Lemma Base_trailing (elem slashes : string) :
  elem <> EmptyString -> plain_chars (list_ascii_of_string elem) ->
  slash_chars (list_ascii_of_string slashes) ->
  filepath.Base (elem ++ slashes) = elem.
Proof.
  intros Hne Hplain Hslashes. pose proof (plain_rev _ Hplain) as Hprev.
  rewrite <- (string_of_list_ascii_of_string elem) at 2.
  apply Base_of_rev;
    [apply append_nonempty_l; exact Hne | apply chars_nonempty; exact Hne |].
  rewrite chars_app, rev_app_distr.
  rewrite stripSeparators_all by (apply slash_rev; exact Hslashes).
  rewrite stripSeparators_plain by exact Hprev. apply lastElement_all. exact Hprev.
Qed.

Lemma Base_join_trailing (dir elem slashes : string) :
  elem <> EmptyString -> plain_chars (list_ascii_of_string elem) ->
  slash_chars (list_ascii_of_string slashes) ->
  filepath.Base (dir ++ "/" ++ elem ++ slashes) = elem.
Proof.
  intros Hne Hplain Hslashes. pose proof (plain_rev _ Hplain) as Hprev.
  pose proof (rev_chars_nonempty elem Hne) as Hrev.
  rewrite <- (string_of_list_ascii_of_string elem) at 2.
  apply Base_of_rev; [destruct dir; discriminate | apply chars_nonempty; exact Hne |].
  rewrite !chars_app, !rev_app_distr. cbn [list_ascii_of_string rev app].
  rewrite <- !app_assoc. cbn [app].
  rewrite stripSeparators_all by (apply slash_rev; exact Hslashes).
  rewrite stripSeparators_app by assumption.
  apply lastElement_app. exact Hprev.
Qed.

(** A path of separators only has the root as its base. *)
Lemma Base_slashes (slashes : string) :
  slashes <> EmptyString -> slash_chars (list_ascii_of_string slashes) ->
  filepath.Base slashes = "/".
Proof.
  intros Hne Hslashes. unfold filepath.Base. rewrite (String_eqb_false _ _ Hne).
  cbv zeta.
  rewrite <- (app_nil_r (rev (list_ascii_of_string slashes))).
  rewrite stripSeparators_all by (apply slash_rev; exact Hslashes).
  reflexivity.
Qed.

(** X11. [filepath.Base] gives the last element of a path: a name without
    a separator is its own base, also behind a directory and in front of
    trailing separators, however many of these there are. The empty path
    has the base ["."] and a path of separators only the base ["/"]. For
    every path the base is non-empty, and it holds no separator unless it
    is the root itself. *)
Theorem Base_last_element (path dir elem slashes : string) :
  elem <> EmptyString ->
  plain_chars (list_ascii_of_string elem) ->
  slash_chars (list_ascii_of_string slashes) ->
  filepath.Base elem = elem
  /\ filepath.Base (dir ++ "/" ++ elem) = elem
  /\ filepath.Base (elem ++ slashes) = elem
  /\ filepath.Base (dir ++ "/" ++ elem ++ slashes) = elem
  /\ filepath.Base EmptyString = "."
  /\ (slashes <> EmptyString -> filepath.Base slashes = "/")
  /\ filepath.Base path <> EmptyString
  /\ (filepath.Base path = "/"
      \/ plain_chars (list_ascii_of_string (filepath.Base path))).
Proof.
  intros Hne Hplain Hslashes.
  split; [apply Base_plain; assumption |].
  split; [apply Base_join; assumption |].
  split; [apply Base_trailing; assumption |].
  split; [apply Base_join_trailing; assumption |].
  split; [reflexivity |].
  split; [intros Hfull; apply Base_slashes; assumption |].
  split.
  - unfold filepath.Base. destruct (String.eqb path EmptyString); [discriminate |].
    cbv zeta. destruct (rev (filepath.lastElement _)) as [| c l]; discriminate.
  - unfold filepath.Base. destruct (String.eqb path EmptyString).
    + right. intros c [<- | []]. reflexivity.
    + cbv zeta.
      destruct (rev (filepath.lastElement
                       (filepath.stripSeparators (rev (list_ascii_of_string path)))))
        as [| c l] eqn:Hel; [left; reflexivity |].
      right. cbn [base64.isNil]. rewrite list_ascii_of_string_of_list_ascii.
      rewrite <- Hel. apply plain_rev, lastElement_plain.
Qed.

Lemma Base_last_element_witness :
  filepath.Base "login.html" = "login.html"
  /\ filepath.Base ("/srv/fms/web/templates" ++ "/" ++ "login.html") = "login.html"
  /\ filepath.Base ("login.html" ++ "/////") = "login.html"
  /\ filepath.Base ("/srv/fms/web/templates" ++ "/" ++ "login.html" ++ "/////")
     = "login.html"
  /\ filepath.Base EmptyString = "."
  /\ ("/////" <> EmptyString -> filepath.Base "/////" = "/")
  /\ filepath.Base "a///" <> EmptyString
  /\ (filepath.Base "a///" = "/"
      \/ plain_chars (list_ascii_of_string (filepath.Base "a///"))).
Proof.
  apply (Base_last_element "a///" "/srv/fms/web/templates" "login.html" "/////").
  - discriminate.
  - intros c Hc. vm_compute in Hc.
    repeat (destruct Hc as [<- | Hc]; [reflexivity |]). destruct Hc.
  - intros c Hc. vm_compute in Hc.
    repeat (destruct Hc as [<- | Hc]; [reflexivity |]). destruct Hc.
Defined.

(** [Base] on some edge inputs. *)
Example Base_edges :
  filepath.Base "a///" = "a"
  /\ filepath.Base "///" = "/"
  /\ filepath.Base "/usr/lib/" = "lib"
  /\ filepath.Base "web/templates/*.html" = "*.html".
Proof. repeat split; vm_compute; reflexivity. Qed.

(** ** The keys of the template map *)

Lemma string_of_list_app (a b : list ascii) :
  string_of_list_ascii (a ++ b) = string_of_list_ascii a ++ string_of_list_ascii b.
Proof.
  induction a as [| c a IH]; [reflexivity |].
  change (String c (string_of_list_ascii (a ++ b))
          = String c (string_of_list_ascii a ++ string_of_list_ascii b)).
  now rewrite IH.
Qed.

Lemma string_length_app (s t : string) :
  String.length (s ++ t) = (String.length s + String.length t)%nat.
Proof.
  rewrite <- !list_ascii_length, chars_app, length_app. reflexivity.
Qed.

(** The slice [s[:len(s)-5]]: defined from five octets on, and then what
    stands before the last five. *)
Lemma sliceTo_cut (s k : string) :
  gostring.sliceTo s (gostring.len s - 5) = Some k
  <-> exists suffix : string, s = k ++ suffix /\ String.length suffix = 5%nat.
Proof.
  unfold gostring.sliceTo, gostring.len. split.
  - destruct ((0 <=? _) && _) eqn:Hrange; [| discriminate].
    apply andb_true_iff in Hrange as [Hlo _]. apply Z.leb_le in Hlo.
    intros H. inversion H as [Hk]. clear H.
    exists (string_of_list_ascii
              (drop (Z.to_nat (Z.of_nat (String.length s) - 5)) (list_ascii_of_string s))).
    split.
    + rewrite <- string_of_list_app, take_drop. symmetry.
      apply string_of_list_ascii_of_string.
    + rewrite string_length_of_list, length_drop, list_ascii_length. lia.
  - intros (suffix & -> & Hlen).
    rewrite string_length_app, Hlen.
    replace (Z.of_nat (String.length k + 5) - 5) with (Z.of_nat (String.length k)) by lia.
    assert (Hrange : (0 <=? Z.of_nat (String.length k))
                     && (Z.of_nat (String.length k) <=? Z.of_nat (String.length k + 5))
                     = true).
    { apply andb_true_iff. split; apply Z.leb_le; lia. }
    rewrite Hrange, Nat2Z.id, chars_app.
    rewrite take_app_length' by (symmetry; apply list_ascii_length).
    rewrite string_of_list_ascii_of_string. reflexivity.
Qed.

Lemma sliceTo_short (s : string) :
  gostring.sliceTo s (gostring.len s - 5) = None <-> (String.length s < 5)%nat.
Proof.
  unfold gostring.sliceTo, gostring.len.
  destruct ((0 <=? _) && _) eqn:Hrange.
  - apply andb_true_iff in Hrange as [Hlo _]. apply Z.leb_le in Hlo.
    split; [discriminate | lia].
  - apply andb_false_iff in Hrange as [H | H]; apply Z.leb_gt in H;
      split; auto; lia.
Qed.

Lemma key_Some_cut (tmpl : template.Template) (k : string) :
  templates.key tmpl = Some k
  <-> exists suffix : string,
        filepath.Base (template.Name tmpl) = k ++ suffix
        /\ String.length suffix = 5%nat.
Proof.
  unfold templates.key. cbv zeta. change (gostring.len ".html") with 5.
  apply sliceTo_cut.
Qed.

Lemma key_None_short (tmpl : template.Template) :
  templates.key tmpl = None
  <-> (String.length (filepath.Base (template.Name tmpl)) < 5)%nat.
Proof.
  unfold templates.key. cbv zeta. change (gostring.len ".html") with 5.
  apply sliceTo_short.
Qed.

(** X12. The key under which [parseTemplates] files a template is the base
    of its name without the last five octets, whatever these are: the
    extension is not looked at. A base name of fewer than five octets, such
    as the name of a [define] block, makes the slice expression panic. *)
Theorem template_key_cut (tmpl : template.Template) :
  (forall k : string,
      templates.key tmpl = Some k
      <-> exists suffix : string,
            filepath.Base (template.Name tmpl) = k ++ suffix
            /\ String.length suffix = 5%nat)
  /\ (templates.key tmpl = None
      <-> (String.length (filepath.Base (template.Name tmpl)) < 5)%nat).
Proof.
  split.
  - intros k. apply key_Some_cut.
  - apply key_None_short.
Qed.

Lemma template_key_cut_witness :
  templates.key sample2.sidebar = Some "si"
  /\ templates.key sample2.nav = None.
Proof.
  split.
  - apply (proj1 (template_key_cut sample2.sidebar)). exists "debar".
    split; vm_compute; reflexivity.
  - apply (proj2 (template_key_cut sample2.nav)). vm_compute. lia.
Defined.

(** X13. For a template file the key is the file name without its
    extension: a template named [stem.html], with or without a directory in
    front, is filed under [stem]. *)
Theorem template_key_html (dir stem body : string) :
  plain_chars (list_ascii_of_string stem) ->
  templates.key {| template.Name := stem ++ ".html"; template.text := body |} = Some stem
  /\ templates.key {| template.Name := dir ++ "/" ++ stem ++ ".html";
                      template.text := body |} = Some stem.
Proof.
  intros Hplain.
  assert (Hfile : plain_chars (list_ascii_of_string (stem ++ ".html"))).
  { intros c Hc. rewrite chars_app in Hc. apply in_app_or in Hc as [Hc | Hc].
    - apply Hplain. exact Hc.
    - cbn in Hc. repeat (destruct Hc as [<- | Hc]; [reflexivity |]). destruct Hc. }
  assert (Hne : stem ++ ".html" <> EmptyString).
  { intros H. apply (f_equal String.length) in H. rewrite string_length_app in H.
    cbn in H. lia. }
  pose proof (Base_plain (stem ++ ".html") Hne Hfile) as Hb1.
  pose proof (Base_join dir (stem ++ ".html") Hne Hfile) as Hb2.
  split; apply key_Some_cut; cbn [template.Name]; exists ".html";
    (split; [| reflexivity]); assumption.
Qed.

Lemma template_key_html_witness :
  templates.key {| template.Name := "login" ++ ".html"; template.text := "<form/>" |}
  = Some "login"
  /\ templates.key {| template.Name := "web/templates" ++ "/" ++ "login" ++ ".html";
                      template.text := "<form/>" |} = Some "login".
Proof.
  apply (template_key_html "web/templates" "login" "<form/>").
  intros c Hc. vm_compute in Hc.
  repeat (destruct Hc as [<- | Hc]; [reflexivity |]). destruct Hc.
Defined.

(** ** parseTemplates *)

Lemma collect_app (a b : list template.Template) (m : gmap string template.Template) :
  templates.collect (a ++ b) m
  = match templates.collect a m with
    | Some m' => templates.collect b m'
    | None => None
    end.
Proof.
  revert m. induction a as [| t a IH]; intros m; [reflexivity |].
  cbn [app templates.collect]. destruct (templates.key t); [apply IH | reflexivity].
Qed.

(** The loop stops in a panic exactly when it meets a template without a
    key. *)
Lemma collect_None (tmpls : list template.Template) (m : gmap string template.Template) :
  templates.collect tmpls m = None
  <-> exists t, In t tmpls /\ templates.key t = None.
Proof.
  revert m. induction tmpls as [| t rest IH]; intros m; cbn [templates.collect].
  - split; [discriminate | intros (t & [] & _)].
  - destruct (templates.key t) as [k |] eqn:Hk.
    + rewrite IH. split.
      * intros (u & Hin & Hu). exists u. split; [right |]; assumption.
      * intros (u & [<- | Hin] & Hu); [congruence |]. exists u. auto.
    + split; [| reflexivity]. intros _. exists t. split; [left; reflexivity | exact Hk].
Qed.

(** What the loop leaves in the map: under each key the last template that
    has it. *)
Lemma collect_last (tmpls : list template.Template) :
  forall m : gmap string template.Template,
    templates.collect tmpls ∅ = Some m ->
    forall (k : string) (t : template.Template),
      m !! k = Some t
      <-> exists pre post : list template.Template,
            tmpls = (pre ++ t :: post)%list
            /\ templates.key t = Some k
            /\ forall u, In u post -> templates.key u <> Some k.
Proof.
  induction tmpls as [| u tmpls IH] using rev_ind; intros m Hrun k t.
  - cbn in Hrun. inversion Hrun; subst m. rewrite lookup_empty. split; [discriminate |].
    intros (pre & post & Hl & _). destruct pre; discriminate.
  - rewrite collect_app in Hrun.
    destruct (templates.collect tmpls ∅) as [m0 |] eqn:Hrun0; [| discriminate].
    cbn [templates.collect] in Hrun.
    destruct (templates.key u) as [ku |] eqn:Hku; [| discriminate].
    inversion Hrun; subst m. clear Hrun. specialize (IH m0 eq_refl k t).
    destruct (decide (ku = k)) as [-> | Hneq].
    + rewrite lookup_insert_eq. split.
      * intros H. inversion H; subst t. exists tmpls, []. split; [reflexivity |].
        split; [exact Hku | intros x []].
      * intros (pre & post & Hl & Hkt & Hpost).
        destruct post as [| p post] using rev_ind.
        -- apply app_inj_tail in Hl as [_ ->]. reflexivity.
        -- clear IHpost. rewrite app_comm_cons, app_assoc in Hl.
           apply app_inj_tail in Hl as [_ ->].
           exfalso. apply (Hpost p); [apply in_or_app; right; left; reflexivity | exact Hku].
    + rewrite lookup_insert_ne by exact Hneq. rewrite IH. split.
      * intros (pre & post & Hl & Hkt & Hpost). exists pre, (post ++ [u])%list.
        split; [subst tmpls; rewrite <- app_assoc; reflexivity |].
        split; [exact Hkt |].
        intros x Hx. apply in_app_or in Hx as [Hx | [<- | []]]; [apply Hpost; exact Hx |].
        congruence.
      * intros (pre & post & Hl & Hkt & Hpost).
        destruct post as [| p post] using rev_ind.
        -- apply app_inj_tail in Hl as [_ ->]. congruence.
        -- clear IHpost. rewrite app_comm_cons, app_assoc in Hl.
           apply app_inj_tail in Hl as [Hl ->].
           exists pre, post. split; [exact Hl |]. split; [exact Hkt |].
           intros x Hx. apply Hpost. apply in_or_app. left. exact Hx.
Qed.

(** X14. [parseTemplates] panics, in both states of [main.go], exactly
    when the pattern is resolved, the templates are parsed, and one of them
    has a base name of fewer than five octets: the name of a [define]
    block is enough to bring the server down at start. *)
Theorem parseTemplates_panics_iff (Abs : string -> string + error)
    (ParseGlob : string -> list template.Template + error) (pattern : string) :
  (templates.parseTemplates Abs ParseGlob pattern = None
   <-> exists (absPattern : string) (tmpls : list template.Template)
              (t : template.Template),
         Abs pattern = inl absPattern /\ ParseGlob absPattern = inl tmpls
         /\ In t tmpls
         /\ (String.length (filepath.Base (template.Name t)) < 5)%nat)
  /\ (templates_earlier.parseTemplates ParseGlob pattern = None
      <-> exists (tmpls : list template.Template) (t : template.Template),
            ParseGlob pattern = inl tmpls
            /\ In t tmpls
            /\ (String.length (filepath.Base (template.Name t)) < 5)%nat).
Proof.
  split.
  - unfold templates.parseTemplates. cbv zeta.
    destruct (Abs pattern) as [absPattern | e].
    + destruct (ParseGlob absPattern) as [tmpls | e] eqn:Hglob.
      * destruct (templates.collect tmpls ∅) as [m |] eqn:Hrun.
        -- split; [discriminate |].
           intros (a & ts & t & Ha & Hts & Hin & Hshort).
           inversion Ha; subst a. rewrite Hglob in Hts. inversion Hts; subst ts.
           assert (Hnone : templates.collect tmpls ∅ = None).
           { apply collect_None. exists t. split; [exact Hin |].
             apply key_None_short. exact Hshort. }
           congruence.
        -- split; [| reflexivity]. intros _.
           apply collect_None in Hrun as (t & Hin & Hk).
           exists absPattern, tmpls, t. repeat split; auto.
           apply key_None_short. exact Hk.
      * split; [discriminate |]. intros (a & ts & t & Ha & Hts & _).
        inversion Ha; subst a. congruence.
    + split; [discriminate |]. intros (a & ts & t & Ha & _). discriminate.
  - unfold templates_earlier.parseTemplates. cbv zeta.
    destruct (ParseGlob pattern) as [tmpls | e] eqn:Hglob.
    + destruct (templates.collect tmpls ∅) as [m |] eqn:Hrun.
      * split; [discriminate |]. intros (ts & t & Hts & Hin & Hshort).
        inversion Hts; subst ts.
        assert (Hnone : templates.collect tmpls ∅ = None).
        { apply collect_None. exists t. split; [exact Hin |].
          apply key_None_short. exact Hshort. }
        congruence.
      * split; [| reflexivity]. intros _.
        apply collect_None in Hrun as (t & Hin & Hk).
        exists tmpls, t. repeat split; auto. apply key_None_short. exact Hk.
    + split; [discriminate |]. intros (ts & t & Hts & _). discriminate.
Qed.

Lemma parseTemplates_panics_iff_witness :
  templates.parseTemplates sample2.Abs
    (sample2.ParseGlob [sample2.login; sample2.nav; sample2.dashboard])
    "web/templates/*.html" = None
  /\ templates_earlier.parseTemplates
       (sample2.ParseGlob [sample2.login; sample2.nav; sample2.dashboard])
       "web/templates/*.html" = None.
Proof.
  split.
  - apply (proj1 (parseTemplates_panics_iff sample2.Abs
                    (sample2.ParseGlob [sample2.login; sample2.nav; sample2.dashboard])
                    "web/templates/*.html")).
    exists "/srv/fms/web/templates/*.html",
           [sample2.login; sample2.nav; sample2.dashboard], sample2.nav.
    split; [reflexivity |]. split; [vm_compute; reflexivity |].
    split; [right; left; reflexivity | vm_compute; lia].
  - apply (proj2 (parseTemplates_panics_iff sample2.Abs
                    (sample2.ParseGlob [sample2.login; sample2.nav; sample2.dashboard])
                    "web/templates/*.html")).
    exists [sample2.login; sample2.nav; sample2.dashboard], sample2.nav.
    split; [vm_compute; reflexivity |].
    split; [right; left; reflexivity | vm_compute; lia].
Defined.

(** Among the templates that have a key, one is met last. *)
Lemma last_with_key (tmpls : list template.Template) (k : string) (t : template.Template) :
  In t tmpls -> templates.key t = Some k ->
  exists (pre post : list template.Template) (t' : template.Template),
    tmpls = (pre ++ t' :: post)%list
    /\ templates.key t' = Some k
    /\ forall u, In u post -> templates.key u <> Some k.
Proof.
  induction tmpls as [| u tmpls IH] using rev_ind; intros Hin Hk; [destruct Hin |].
  destruct (decide (templates.key u = Some k)) as [Hu | Hu].
  - exists tmpls, [], u. split; [reflexivity |]. split; [exact Hu | intros x []].
  - apply in_app_or in Hin as [Hin | [<- | []]]; [| congruence].
    destruct (IH Hin Hk) as (pre & post & t' & Hl & Hk' & Hpost).
    exists pre, (post ++ [u])%list, t'.
    split; [subst tmpls; rewrite <- app_assoc; reflexivity |].
    split; [exact Hk' |].
    intros x Hx. apply in_app_or in Hx as [Hx | [<- | []]]; [apply Hpost; exact Hx |].
    exact Hu.
Qed.

(** What one run of the loop leaves in the map. *)
Lemma collect_contents (tmpls : list template.Template)
    (m : gmap string template.Template) :
  templates.collect tmpls ∅ = Some m ->
  (forall (k : string) (t : template.Template),
      m !! k = Some t
      <-> exists pre post : list template.Template,
            tmpls = (pre ++ t :: post)%list
            /\ templates.key t = Some k
            /\ forall u, In u post -> templates.key u <> Some k)
  /\ (forall t : template.Template,
        In t tmpls -> exists k : string, templates.key t = Some k /\ is_Some (m !! k))
  /\ (forall (k : string) (t : template.Template),
        m !! k = Some t -> In t tmpls /\ templates.key t = Some k)
  /\ ((forall t u : template.Template,
         In t tmpls -> In u tmpls -> templates.key t = templates.key u -> t = u) ->
      forall t : template.Template,
        In t tmpls -> exists k : string, templates.key t = Some k /\ m !! k = Some t).
Proof.
  intros Hrun. pose proof (collect_last tmpls m Hrun) as Hlast.
  assert (Hkeyed : forall t, In t tmpls -> exists k, templates.key t = Some k).
  { intros t Hin. destruct (templates.key t) as [k |] eqn:Hk; [eauto |].
    assert (Hnone : templates.collect tmpls ∅ = None)
      by (apply collect_None; eauto).
    congruence. }
  assert (Hfiled : forall t, In t tmpls ->
            exists k t', templates.key t = Some k /\ m !! k = Some t'
                         /\ In t' tmpls /\ templates.key t' = Some k).
  { intros t Hin. destruct (Hkeyed t Hin) as [k Hk].
    destruct (last_with_key tmpls k t Hin Hk) as (pre & post & t' & Hl & Hk' & Hpost).
    exists k, t'. split; [exact Hk |]. split; [apply Hlast; eauto |].
    split; [| exact Hk']. subst tmpls. apply in_or_app. right. left. reflexivity. }
  split; [exact Hlast |]. split; [| split].
  - intros t Hin. destruct (Hfiled t Hin) as (k & t' & Hk & Hm & _). eauto.
  - intros k t Hm. apply Hlast in Hm as (pre & post & Hl & Hk & _).
    split; [| exact Hk]. subst tmpls. apply in_or_app. right. left. reflexivity.
  - intros Hdistinct t Hin. destruct (Hfiled t Hin) as (k & t' & Hk & Hm & Hin' & Hk').
    exists k. split; [exact Hk |].
    rewrite (Hdistinct t t' Hin Hin') by congruence. exact Hm.
Qed.

(** X15. When [parseTemplates], in either state of [main.go], returns a
    map, no error comes with it and the map is made of the templates this
    call parsed and of nothing else: every template has its key in the map,
    every entry is one of the templates under its own key, and under a key
    that several templates share the map holds the one the loop met last.
    When no two templates share a key, every template is found under its
    key, in whatever order the loop met them. *)
Theorem parseTemplates_map (Abs : string -> string + error)
    (ParseGlob : string -> list template.Template + error) (pattern : string)
    (m : gmap string template.Template) (err : option error) :
  let contents (tmpls : list template.Template) :=
    (forall (k : string) (t : template.Template),
        m !! k = Some t
        <-> exists pre post : list template.Template,
              tmpls = (pre ++ t :: post)%list
              /\ templates.key t = Some k
              /\ forall u, In u post -> templates.key u <> Some k)
    /\ (forall t : template.Template,
          In t tmpls -> exists k : string, templates.key t = Some k /\ is_Some (m !! k))
    /\ (forall (k : string) (t : template.Template),
          m !! k = Some t -> In t tmpls /\ templates.key t = Some k)
    /\ ((forall t u : template.Template,
           In t tmpls -> In u tmpls -> templates.key t = templates.key u -> t = u) ->
        forall t : template.Template,
          In t tmpls -> exists k : string, templates.key t = Some k /\ m !! k = Some t) in
  (templates.parseTemplates Abs ParseGlob pattern = Some (Some m, err) ->
   err = None
   /\ exists (absPattern : string) (tmpls : list template.Template),
        Abs pattern = inl absPattern /\ ParseGlob absPattern = inl tmpls
        /\ contents tmpls)
  /\ (templates_earlier.parseTemplates ParseGlob pattern = Some (Some m, err) ->
      err = None
      /\ exists tmpls : list template.Template,
           ParseGlob pattern = inl tmpls /\ contents tmpls).
Proof.
  intros contents. subst contents. cbv beta. split.
  - unfold templates.parseTemplates. cbv zeta.
    destruct (Abs pattern) as [absPattern | e]; [| discriminate].
    destruct (ParseGlob absPattern) as [tmpls | e] eqn:Hglob; [| discriminate].
    destruct (templates.collect tmpls ∅) as [m0 |] eqn:Hrun; [| discriminate].
    intros H. inversion H; subst m0 err. clear H.
    split; [reflexivity |]. exists absPattern, tmpls.
    split; [reflexivity |]. split; [exact Hglob |].
    exact (collect_contents tmpls m Hrun).
  - unfold templates_earlier.parseTemplates. cbv zeta.
    destruct (ParseGlob pattern) as [tmpls | e] eqn:Hglob; [| discriminate].
    destruct (templates.collect tmpls ∅) as [m0 |] eqn:Hrun; [| discriminate].
    intros H. inversion H; subst m0 err. clear H.
    split; [reflexivity |]. exists tmpls. split; [reflexivity |].
    exact (collect_contents tmpls m Hrun).
Qed.

Lemma parseTemplates_map_witness :
  templates.parseTemplates sample2.Abs
    (sample2.ParseGlob [sample2.login_form; sample2.dashboard; sample2.login])
    "web/templates/*.html" = Some (Some sample2.filed, None)
  /\ sample2.filed !! "login" = Some sample2.login
  /\ sample2.filed !! "dashboard" = Some sample2.dashboard
  /\ sample2.filed !! "login" <> Some sample2.login_form.
Proof.
  assert (Hrun : templates.parseTemplates sample2.Abs
                   (sample2.ParseGlob [sample2.login_form; sample2.dashboard; sample2.login])
                   "web/templates/*.html" = Some (Some sample2.filed, None))
    by (vm_compute; reflexivity).
  destruct (proj1 (parseTemplates_map sample2.Abs
                     (sample2.ParseGlob
                        [sample2.login_form; sample2.dashboard; sample2.login])
                     "web/templates/*.html" sample2.filed None) Hrun)
    as (_ & absPattern & tmpls & Habs & Hglob & Hlast & _ & Hsound & _).
  unfold sample2.Abs in Habs. inversion Habs; subst absPattern. clear Habs.
  assert (Htmpls : tmpls = [sample2.login_form; sample2.dashboard; sample2.login]).
  { change (inl [sample2.login_form; sample2.dashboard; sample2.login]
            = (inl tmpls : list template.Template + error)) in Hglob.
    inversion Hglob. reflexivity. }
  subst tmpls.
  assert (Hlogin : sample2.filed !! "login" = Some sample2.login).
  { apply Hlast. exists [sample2.login_form; sample2.dashboard], [].
    split; [reflexivity |]. split; [vm_compute; reflexivity | intros u []]. }
  split; [exact Hrun |]. split; [exact Hlogin |]. split.
  - apply Hlast. exists [sample2.login_form], [sample2.login].
    split; [reflexivity |]. split; [vm_compute; reflexivity |].
    intros u [<- | []]. vm_compute. discriminate.
  - rewrite Hlogin. discriminate.
Defined.

(** X16. [parseTemplates] reports an error exactly when the pattern cannot
    be resolved or the parse fails; no map comes with it, and the message
    names the stage in front of the message of the cause. When resolving
    fails the templates are not parsed at all. *)
Theorem parseTemplates_error (Abs : string -> string + error)
    (ParseGlob : string -> list template.Template + error) (pattern : string)
    (m : option (gmap string template.Template)) (err : error) :
  templates.parseTemplates Abs ParseGlob pattern = Some (m, Some err)
  <-> m = None
      /\ ((exists cause : error,
             Abs pattern = inr cause
             /\ gostring.Error err
                = "error resolving absolute path: " ++ gostring.Error cause)
          \/ (exists (absPattern : string) (cause : error),
                Abs pattern = inl absPattern
                /\ ParseGlob absPattern = inr cause
                /\ gostring.Error err
                   = "error parsing templates: " ++ gostring.Error cause)).
Proof.
  unfold templates.parseTemplates, gostring.Errorf_v. cbv zeta.
  destruct (Abs pattern) as [absPattern | e0].
  - destruct (ParseGlob absPattern) as [tmpls | e0] eqn:Hglob.
    + split.
      * destruct (templates.collect tmpls ∅); discriminate.
      * intros (_ & [(cause & H & _) | (a & cause & Ha & Hg & _)]); [discriminate |].
        inversion Ha; subst a. congruence.
    + split.
      * intros H. inversion H; subst. split; [reflexivity |]. right.
        exists absPattern, e0. repeat split; auto.
      * intros (-> & [(cause & H & _) | (a & cause & Ha & Hg & Hmsg)]); [discriminate |].
        inversion Ha; subst a. rewrite Hglob in Hg. inversion Hg; subst cause.
        destruct err as [msg]. cbn in Hmsg. subst msg. reflexivity.
  - split.
    + intros H. inversion H; subst. split; [reflexivity |]. left.
      exists e0. split; reflexivity.
    + intros (-> & [(cause & H & Hmsg) | (a & cause & Ha & _)]); [| discriminate].
      inversion H; subst cause. destruct err as [msg]. cbn in Hmsg. subst msg.
      reflexivity.
Qed.

Lemma parseTemplates_error_witness :
  templates.parseTemplates sample2.Abs (sample2.ParseGlob [sample2.login]) "web/templates"
  = Some (None, Some (errors_New
       "error parsing templates: html/template: pattern matches no files")).
Proof.
  apply (proj2 (parseTemplates_error sample2.Abs (sample2.ParseGlob [sample2.login])
                  "web/templates" None _)).
  split; [reflexivity |]. right.
  exists "/srv/fms/web/templates",
         (errors_New "html/template: pattern matches no files").
  repeat split; vm_compute; reflexivity.
Defined.

(** ** What validation does not look at *)

Lemma find_head_filter {A} (f : A -> bool) (l : list A) :
  List.find f l = head (List.filter f l).
Proof.
  induction l as [| a l IH]; [reflexivity |]. cbn.
  destruct (f a); [reflexivity | exact IH].
Qed.

(** X17. [ValidateCSRFToken] reads the values of the form field
    [csrf_token] and the cookies named [csrf_token], and nothing else: two
    requests that agree on these get the same answer, whatever their other
    form fields, their other cookies and the identity in their context. *)
Theorem validate_reads_only (r r' : http.Request) :
  http.Form r !! "csrf_token" = http.Form r' !! "csrf_token" ->
  List.filter (fun nv => String.eqb (fst nv) "csrf_token") (http.Cookies r)
  = List.filter (fun nv => String.eqb (fst nv) "csrf_token") (http.Cookies r') ->
  utils.ValidateCSRFToken r = utils.ValidateCSRFToken r'.
Proof.
  intros Hform Hcookies.
  unfold utils.ValidateCSRFToken, http.FormValue, http.Cookie_. cbv zeta.
  rewrite Hform. cbn [String.eqb Ascii.eqb Bool.eqb].
  rewrite !find_head_filter, Hcookies. reflexivity.
Qed.

Lemma validate_reads_only_witness :
  utils.ValidateCSRFToken
    {| http.Form := {[ "csrf_token" := ["abc"] ]};
       http.Cookies := [("csrf_token", "abc")];
       http.identity := None |}
  = utils.ValidateCSRFToken
      {| http.Form := <["quantity" := ["3"]]> {[ "csrf_token" := ["abc"] ]};
         http.Cookies := [("session_id", "s-buyer"); ("csrf_token", "abc"); ("theme", "dark")];
         http.identity := Some sample.buyer |}.
Proof.
  apply validate_reads_only; vm_compute; reflexivity.
Defined.
